(** * simple_scraper.py: a shallow embedding and its properties

    The script fetches one page, collects the href values of its elements,
    filters them by extension, repairs links without a scheme and downloads
    the remaining links one after the other.

    Python [str] values are modelled as [string] (the UTF-8 bytes of the
    text): the script only splits and searches on the ASCII characters
    '.', ',', ':' and '/', which never occur inside a multi-byte sequence.
    Calls to the outside world (console, file system, network, clock) are
    recorded as events of a trace; their results come from a [world]. *)

From Stdlib Require Import String Ascii List ZArith Lia Bool Sorted.
From Stdlib Require Import DecimalString.
Import ListNotations.

Local Open Scope string_scope.
Local Open Scope list_scope.

(** ** Exceptions and results *)

Inductive exn : Type :=
| SystemExit (msg : string)
| TypeError
| ValueError
| IndexError
| KeyError
| AttributeError
| OverflowError
| ParserRejectedMarkup
| EnvError.            (* any exception raised by the file system or the network *)

Inductive outcome (A : Type) : Type :=
| Return (a : A)
| Raise (e : exn).

Arguments Return {A} a.
Arguments Raise {A} e.

Definition omap {A B} (f : A -> B) (o : outcome A) : outcome B :=
  match o with
  | Return a => Return (f a)
  | Raise e => Raise e
  end.

Definition obind {A B} (o : outcome A) (k : A -> outcome B) : outcome B :=
  match o with
  | Return a => k a
  | Raise e => Raise e
  end.

(** Exit status of the interpreter: 0 when [main] returns, 1 when it is left
    by an exception ([SystemExit] carrying a message, or an uncaught error). *)
Definition exit_status {A} (o : outcome A) : Z :=
  match o with
  | Return _ => 0
  | Raise (SystemExit _) => 1
  | Raise _ => 1
  end.

(** ** Python string and list primitives used by the script *)

Module Py.

(** [c in s] for a one-character [c]. *)
Fixpoint contains (c : ascii) (s : string) : bool :=
  match s with
  | EmptyString => false
  | String a r => Ascii.eqb a c || contains c r
  end.

(** [s.split(sep)] for a one-character separator: one piece more than
    there are separators, never the empty list. *)
Fixpoint split (sep : ascii) (s : string) : list string :=
  match s with
  | EmptyString => [EmptyString]
  | String a r =>
      if Ascii.eqb a sep then EmptyString :: split sep r
      else match split sep r with
           | [] => [String a EmptyString]
           | p :: ps => String a p :: ps
           end
  end.

(** [l[0]] *)
Definition item0 {A} (l : list A) : outcome A :=
  match l with
  | [] => Raise IndexError
  | x :: _ => Return x
  end.

(** [l[-1]] *)
Fixpoint item_last {A} (l : list A) : outcome A :=
  match l with
  | [] => Raise IndexError
  | [x] => Return x
  | _ :: r => item_last r
  end.

(** [l[-1::]]: the list of the last element, empty for the empty list. *)
Definition slice_last {A} (l : list A) : list A :=
  skipn (length l - 1) l.

(** [x in l] for a list of strings. *)
Definition mem (x : string) (l : list string) : bool :=
  existsb (String.eqb x) l.

(** Arguments of the [%] operator. *)
Inductive fmt_arg : Type :=
| FStr (s : string)
| FInt (n : Z).

Definition str_of_int (n : Z) : string :=
  NilZero.string_of_int (Z.to_int n).

(** [fmt % args] for the conversions the script uses ([%s], [%d], [%%]).
    A single value that is not a tuple counts as one argument.
    Too few arguments, too many arguments and [%d] on a string raise
    [TypeError]; a malformed conversion raises [ValueError]. *)
Fixpoint percent (fmt : string) (args : list fmt_arg) : outcome string :=
  match fmt with
  | EmptyString =>
      match args with
      | [] => Return EmptyString
      | _ :: _ => Raise TypeError
      end
  | String a r =>
      if Ascii.eqb a "%" then
        match r with
        | EmptyString => Raise ValueError
        | String c r' =>
            if Ascii.eqb c "%" then omap (String "%"%char) (percent r' args)
            else if Ascii.eqb c "s" then
              match args with
              | [] => Raise TypeError
              | FStr s :: args' => omap (append s) (percent r' args')
              | FInt n :: args' => omap (append (str_of_int n)) (percent r' args')
              end
            else if Ascii.eqb c "d" then
              match args with
              | [] => Raise TypeError
              | FStr _ :: _ => Raise TypeError
              | FInt n :: args' => omap (append (str_of_int n)) (percent r' args')
              end
            else Raise ValueError
        end
      else omap (String a) (percent r args)
  end.

(** An insertion-ordered dictionary: keys are distinct, a new key goes to
    the end, an existing key keeps its place and takes the new value. *)
Module OrderedDict.

Definition t (V : Type) : Type := list (string * V).

Fixpoint setitem {V} (k : string) (v : V) (d : t V) : t V :=
  match d with
  | [] => [(k, v)]
  | (k', v') :: r =>
      if String.eqb k' k then (k', v) :: r else (k', v') :: setitem k v r
  end.

(** [OrderedDict.fromkeys(keys)]: every key mapped to [None]. *)
Definition fromkeys (keys : list string) : t unit :=
  fold_left (fun d k => setitem k tt d) keys [].

(** [list(d)]: the keys in insertion order. *)
Definition keys {V} (d : t V) : list string := map fst d.

End OrderedDict.

End Py.

(** ** The parsed document

    [BeautifulSoup(html, 'html.parser')] yields a tree of tags and text; a
    tag carries its attributes as a dictionary from names to values. *)

#[warnings="-register-all"] Inductive node : Type :=
| Tag (name : string) (attrs : list (string * string)) (children : list node)
| Text (s : string).

Fixpoint attr_lookup (key : string) (attrs : list (string * string)) : option string :=
  match attrs with
  | [] => None
  | (k, v) :: r => if String.eqb k key then Some v else attr_lookup key r
  end.

(** [tag[key]] *)
Definition getitem (n : node) (key : string) : outcome string :=
  match n with
  | Tag _ attrs _ =>
      match attr_lookup key attrs with
      | Some v => Return v
      | None => Raise KeyError
      end
  | Text _ => Raise TypeError
  end.

Definition has_attr (key : string) (n : node) : bool :=
  match n with
  | Tag _ attrs _ =>
      match attr_lookup key attrs with
      | Some _ => true
      | None => false
      end
  | Text _ => false
  end.

(** The tags of a tree in document order (a tag before its children). *)
Fixpoint descendants (n : node) : list node :=
  match n with
  | Tag _ _ children => n :: flat_map descendants children
  | Text _ => []
  end.

(** [soup.find_all(href=True)]: every tag that declares an href, in
    document order. *)
Definition find_all_href (soup : list node) : list node :=
  filter (has_attr "href") (flat_map descendants soup).

(** ** Events, the world, and the monad of the script *)

(** Values printed through their [str()], whose text the model leaves open. *)
Inductive shown : Type :=
| ShownExn (e : exn)
| ShownNamespace
| ShownHeaders
| ShownRetrieved
| ShownList (l : list string).

Inductive event : Type :=
| EPrint (line : string)
| EPrintObj (o : shown)
| EOpenX (path : string) (ok : bool)
| EUnlink (path : string) (ok : bool)
| EUrlOpen (url : string) (ok : bool)
| ERead (url : string) (ok : bool)
| EUrlRetrieve (url path : string) (ok : bool)
| ETruncate (url path : string)
| ESleep (seconds : Z).

Definition is_network (e : event) : bool :=
  match e with
  | EUrlOpen _ _ | ERead _ _ | EUrlRetrieve _ _ _ => true
  | _ => false
  end.

Definition is_retrieve (e : event) : bool :=
  match e with
  | EUrlRetrieve _ _ _ => true
  | _ => false
  end.

Definition is_console (e : event) : bool :=
  match e with
  | EPrint _ | EPrintObj _ => true
  | _ => false
  end.

(** What the script cannot decide by itself. Writing to the console is
    taken to succeed. The parser returns a document or raises on markup it
    rejects. The [n]-th call of [urlretrieve] in a run succeeds or fails as
    the world says, and a failing one may already have opened its target
    with mode ['wb'], which empties the file ([ETruncate], recorded before
    the failure). [time.sleep] converts its length to the unit of the clock
    and raises [OverflowError] for a length that does not fit. *)
Record world : Type := {
  probe_name : string;                       (* md5(str(now))[0:10] *)
  open_x_ok : string -> bool;                (* open(path, 'x') *)
  unlink_ok : string -> bool;                (* os.unlink(path) *)
  urlopen_ok : string -> bool;               (* urlopen(Request(url, ...)) *)
  response_read : string -> option string;   (* response.read() *)
  html_parser : string -> outcome (list node);
                                             (* BeautifulSoup(html, 'html.parser') *)
  urlretrieve_ok : nat -> string -> string -> bool;
  urlretrieve_opened : nat -> string -> string -> bool;
  sleep_fits : Z -> bool
}.

Definition M (A : Type) : Type := list event -> outcome A * list event.

Definition ret {A} (a : A) : M A := fun t => (Return a, t).

Definition bind {A B} (m : M A) (k : A -> M B) : M B :=
  fun t =>
    match m t with
    | (Return a, t') => k a t'
    | (Raise e, t') => (Raise e, t')
    end.

Definition raise {A} (e : exn) : M A := fun t => (Raise e, t).

Definition lift {A} (o : outcome A) : M A := fun t => (o, t).

Definition emit (e : event) : M unit := fun t => (Return tt, t ++ [e]).

(** [try: body / except BaseException as ex: handler ex] *)
Definition try_except {A} (body : M A) (handler : exn -> M A) : M A :=
  fun t =>
    match body t with
    | (Return a, t') => (Return a, t')
    | (Raise e, t') => handler e t'
    end.

Declare Scope py_scope.
Delimit Scope py_scope with py.
Notation "x <- m ;; k" := (bind m (fun x => k))
  (at level 61, m at next level, right associativity) : py_scope.
Notation "m ;; k" := (bind m (fun _ => k))
  (at level 61, right associativity) : py_scope.
Local Open Scope py_scope.

(** [if b: m] *)
Definition when (b : bool) (m : M unit) : M unit :=
  if b then m else ret tt.

(** [for x in l: body x] *)
Fixpoint for_each {A} (l : list A) (body : A -> M unit) : M unit :=
  match l with
  | [] => ret tt
  | x :: r => body x ;; for_each r body
  end.

Definition print (line : string) : M unit := emit (EPrint line).

Definition print_obj (o : shown) : M unit := emit (EPrintObj o).

(** [print(fmt % args)] *)
Definition print_fmt (fmt : string) (args : list Py.fmt_arg) : M unit :=
  line <- lift (Py.percent fmt args) ;; print line.

Definition count_retrievals (t : list event) : nat :=
  length (filter is_retrieve t).

Definition tab : string := String (ascii_of_nat 9) EmptyString.
Definition newline : string := String (ascii_of_nat 10) EmptyString.

(** ** The script *)

(** The value passed as [exts]: the very object of the literal ['*'], another
    string, or [None] (what argparse stores for a bare [-f]). The test
    [exts is not '*'] compares identities, not texts. *)
Inductive exts_obj : Type :=
| StarLiteral
| StrObj (s : string)
| NoneObj.

(** The parsed command line. [file_types] is absent for a bare [-f];
    [wait_time] is what [int(args.wait_time)] returns or raises. *)
Record args : Type := {
  target_url : string;
  destination_directory : string;
  debug_mode : bool;
  file_types : option string;
  silent_mode : bool;
  halt_error : bool;
  dry_run_mode : bool;
  wait_time : outcome Z
}.

(** CPython shares the objects of one-character strings, so an argument of
    text [*] is the object of the literal. *)
Definition exts_of_arg (a : option string) : exts_obj :=
  match a with
  | None => NoneObj
  | Some s => if String.eqb s "*" then StarLiteral else StrObj s
  end.

(** [for link in soup.find_all(href=True): hotlinks.append(link['href'])] *)
Fixpoint collect_hrefs (tags : list node) (hotlinks : list string) : outcome (list string) :=
  match tags with
  | [] => Return hotlinks
  | link :: r => obind (getitem link "href") (fun h => collect_hrefs r (hotlinks ++ [h]))
  end.

(** [list(OrderedDict.fromkeys(hotlinks))] *)
Definition dedup (hotlinks : list string) : list string :=
  Py.OrderedDict.keys (Py.OrderedDict.fromkeys hotlinks).

(** Lines 86 to 88 on a parsed document. *)
Definition deduped_of (soup : list node) : outcome (list string) :=
  omap dedup (collect_hrefs (find_all_href soup) []).

(** [link.split(".")[-1::][0]] *)
Definition link_ext_of (link : string) : outcome string :=
  Py.item0 (Py.slice_last (Py.split "." link)).

(** The filtering loop of [find_hotlinks], lines 94 to 101. *)
Fixpoint filter_links (exts : list string) (debug : bool)
    (links filtered_list : list string) : M (list string) :=
  match links with
  | [] => ret filtered_list
  | link :: r =>
      link_ext <- lift (link_ext_of link) ;;
      when debug (print ("Checking " ++ link)%string ;; print "Split: " ;; print link_ext) ;;
      filter_links exts debug r
        (if Py.mem link_ext exts then filtered_list ++ [link] else filtered_list)
  end.

(** The loop of [check_and_fix_protocol], lines 118 to 131. *)
Fixpoint fix_links (protocol : string) (debug : bool)
    (urls fixed_urllist : list string) : M (list string) :=
  match urls with
  | [] => ret fixed_urllist
  | link :: r =>
      if Py.contains ":" link then
        when debug (print_fmt "Link has protocol information: %s" [Py.FStr link]) ;;
        fix_links protocol debug r (fixed_urllist ++ [link])
      else
        when debug (print "Link missing protocol information.") ;;
        let protocol_added := (protocol ++ ":" ++ link)%string in
        when debug (print_fmt "New link: %s" [Py.FStr protocol_added]) ;;
        fix_links protocol debug r (fixed_urllist ++ [protocol_added])
  end.

Section Script.

Variable W : world.

Definition open_x (path : string) : M unit :=
  fun t =>
    if open_x_ok W path then (Return tt, t ++ [EOpenX path true])
    else (Raise EnvError, t ++ [EOpenX path false]).

Definition unlink (path : string) : M unit :=
  fun t =>
    if unlink_ok W path then (Return tt, t ++ [EUnlink path true])
    else (Raise EnvError, t ++ [EUnlink path false]).

(** [urlopen(Request(url, headers=...))] *)
Definition urlopen (url : string) : M unit :=
  fun t =>
    if urlopen_ok W url then (Return tt, t ++ [EUrlOpen url true])
    else (Raise EnvError, t ++ [EUrlOpen url false]).

(** [response.read()] *)
Definition read (url : string) : M string :=
  fun t =>
    match response_read W url with
    | Some body => (Return body, t ++ [ERead url true])
    | None => (Raise EnvError, t ++ [ERead url false])
    end.

Definition urlretrieve (url path : string) : M shown :=
  fun t =>
    if urlretrieve_ok W (count_retrievals t) url path
    then (Return ShownRetrieved, t ++ [EUrlRetrieve url path true])
    else (Raise EnvError,
          t ++ (if urlretrieve_opened W (count_retrievals t) url path
                then [ETruncate url path] else [])
            ++ [EUrlRetrieve url path false]).

(** [time.sleep(n)]: the length is converted first, then a negative length
    is refused. *)
Definition sleep (n : Z) : M unit :=
  if negb (sleep_fits W n) then raise OverflowError
  else if (n <? 0)%Z then raise ValueError
  else emit (ESleep n).

Definition check_if_valid_path (path : string) (debug : bool) : M bool :=
  let filename := probe_name W in
  when debug
    (s <- lift (Py.percent "Checking if path is valid by touching %s" [Py.FStr path]) ;;
     print (s ++ "/" ++ filename)%string) ;;
  try_except
    (open_x (path ++ "/" ++ filename)%string ;;
     when debug (print "Successfully opened test file." ;; print "Deleting test file...") ;;
     unlink (path ++ "/" ++ filename)%string ;;
     ret true)
    (fun ex =>
       when debug (print_obj (ShownExn ex)) ;;
       msg <- lift (Py.percent "Error, could not write to destination directory %s"
                      [Py.FStr path]) ;;
       raise (SystemExit msg)).

Definition get_target_html (url : string) (debug : bool) : M string :=
  try_except
    (when debug (print_fmt "Attempting to fetch %s" [Py.FStr url]) ;;
     urlopen url ;;
     when debug (print_obj ShownHeaders) ;;
     html <- read url ;;
     ret html)
    (fun ex =>
       when debug (print_obj (ShownExn ex)) ;;
       msg <- lift (Py.percent "Error, could not connect to target %s" [Py.FStr url]) ;;
       raise (SystemExit msg)).

(** The link sequence of [find_hotlinks] before filtering: parsing (line
    83), then collecting and removing duplicates (lines 86 to 88). *)
Definition deduped_hotlinks (html : string) : outcome (list string) :=
  obind (html_parser W html) deduped_of.

Definition find_hotlinks (html : string) (exts : exts_obj) (debug : bool) : M (list string) :=
  soup <- lift (html_parser W html) ;;
  when debug (print "Finding hrefs.") ;;
  deduped <- lift (deduped_of soup) ;;
  filtered_list <-
    match exts with
    | StarLiteral => ret deduped
    | StrObj s =>
        let exts := Py.split "," s in
        when debug (print "Passed good extensions: " ;; print_obj (ShownList exts)) ;;
        filter_links exts debug deduped []
    | NoneObj => raise AttributeError
    end ;;
  when debug (for_each filtered_list (fun link => print_fmt (tab ++ "%s")%string [Py.FStr link])) ;;
  ret filtered_list.

Definition check_and_fix_protocol (original_target : string) (urls : list string)
    (debug : bool) : M (list string) :=
  protocol <- lift (Py.item0 (Py.split ":" original_target)) ;;
  fix_links protocol debug urls [].

Definition download_file (url destination_dir : string)
    (debug silent halt_on_error dry_run : bool) (wait : Z) : M bool :=
  filename <- lift (Py.item_last (Py.split "/" url)) ;;
  let full_path := (destination_dir ++ "/" ++ filename)%string in
  when (negb silent)
    (print_fmt "[+] Downloading %s to %s..." [Py.FStr url; Py.FStr full_path]) ;;
  try_except
    ((if negb dry_run then
        res <- urlretrieve url full_path ;;
        sleep wait ;;
        when debug (print_obj res)
      else
        when (negb silent) (print "[!] Dry Run, no file saved!")) ;;
     when (negb silent) (print "[+] Done.") ;;
     ret true)
    (fun ex =>
       when debug (print_obj (ShownExn ex)) ;;
       if halt_on_error then
         msg <- lift (Py.percent "Download failed and halt on error set, halting."
                        [Py.FStr url]) ;;
         raise (SystemExit msg)
       else
         when (negb silent) (print_fmt "[-] Download Failed" [Py.FStr url]) ;;
         ret false).

(** The loop of [main], lines 195 to 198. *)
Definition download_all (a : args) (wait : Z) (links_to_download : list string) : M unit :=
  for_each links_to_download
    (fun link =>
       download_file link (destination_directory a) (debug_mode a) (silent_mode a)
         (halt_error a) (dry_run_mode a) wait ;;
       ret tt).

(** [main], from the parsed command line on. *)
Definition main (a : args) : M unit :=
  WAIT_TIME <- lift (wait_time a) ;;
  when (debug_mode a)
    (print "[!] DEBUG mode on." ;; print "Arguments object:" ;; print_obj ShownNamespace) ;;
  when (negb (silent_mode a))
    (print_fmt "[+] Scraping %s" [Py.FStr (target_url a)] ;;
     print_fmt "[+] Saving to %s" [Py.FStr (destination_directory a)]) ;;
  check_if_valid_path (destination_directory a) (debug_mode a) ;;
  html <- get_target_html (target_url a) (debug_mode a) ;;
  found_hotlinks <- find_hotlinks html (exts_of_arg (file_types a)) (debug_mode a) ;;
  links_to_download <-
    check_and_fix_protocol (target_url a) found_hotlinks (debug_mode a) ;;
  when (negb (silent_mode a))
    (print_fmt "[+] Found %d hotlinks." [Py.FInt (Z.of_nat (length links_to_download))] ;;
     for_each links_to_download (fun link => print_fmt (tab ++ "%s")%string [Py.FStr link]) ;;
     print newline) ;;
  download_all a WAIT_TIME links_to_download.

End Script.

(** ** Notions of the specification *)

(** [e] is the text after the last ['.'] of [link], or [link] itself when
    it has no ['.']. *)
Definition extension_of (link e : string) : Prop :=
  (Py.contains "." link = false /\ e = link) \/
  (exists p, link = (p ++ String "." e)%string /\ Py.contains "." e = false).

(** [p] is the text before the first [':'] of [target] ([target] itself when
    it has no [':']). *)
Definition scheme_of (target p : string) : Prop :=
  (exists rest, target = (p ++ String ":" rest)%string /\ Py.contains ":" p = false) \/
  (Py.contains ":" target = false /\ p = target).


(** The link a scheme-less or complete link is turned into. *)
Definition with_scheme (scheme link : string) : string :=
  if Py.contains ":" link then link else (scheme ++ ":" ++ link)%string.

(** The test of the filtering loop on one link. *)
Definition keeps (exts : list string) (link : string) : bool :=
  match link_ext_of link with
  | Return e => Py.mem e exts
  | Raise _ => false
  end.

(** The first occurrences of a list, head first: the reading of
    "first-occurrence order" the dictionary is compared with. *)
Fixpoint first_occurrences (l : list string) : list string :=
  match l with
  | [] => []
  | x :: r => x :: filter (fun y => negb (String.eqb y x)) (first_occurrences r)
  end.

(** The file name [download_file] derives from a link. *)
Definition filename_of (url : string) : string :=
  match Py.item_last (Py.split "/" url) with
  | Return f => f
  | Raise _ => EmptyString
  end.

(** What [download_file] prints first when it is not silent. *)
Definition downloading_line (url destination_dir : string) : event :=
  EPrint ("[+] Downloading " ++ url ++ " to " ++
          (destination_dir ++ "/" ++ filename_of url) ++ "...")%string.

(** A page with the three links of the first scenario of the specification,
    in a world where the destination is writable or not and the [n]-th
    retrieval succeeds as [ok n] says. *)
Definition scenario_world (writable : bool) (ok : nat -> bool) : world := {|
  probe_name := "0123456789";
  open_x_ok := fun _ => writable;
  unlink_ok := fun _ => true;
  urlopen_ok := fun _ => true;
  response_read := fun _ => Some "<html>";
  html_parser := fun _ =>
    Return
      [Tag "html" []
         [Tag "a" [("href", "//cdn.example.com/a.jpg")] [Text "a"];
          Tag "a" [("href", "https://x.com/b.png")] [];
          Tag "a" [("href", "//cdn.example.com/a.jpg")] []]];
  urlretrieve_ok := fun n _ _ => ok n;
  urlretrieve_opened := fun _ _ _ => false;
  sleep_fits := fun n => ((-9223372036 <=? n) && (n <=? 9223372036))%Z
|}.

Definition scenario_args (silent halt dry : bool) : args := {|
  target_url := "http://example.com/page";
  destination_directory := "out";
  debug_mode := false;
  file_types := Some "jpg,jpeg,png,gif";
  silent_mode := silent;
  halt_error := halt;
  dry_run_mode := dry;
  wait_time := Return 1%Z
|}.

(** ** Observations on traces *)

(** A trace without its console output. *)
Definition quiet (t : list event) : list event :=
  filter (fun e => negb (is_console e)) t.

(** The retrievals of a trace: which link went to which path. *)
Definition retrieved (t : list event) : list (string * string) :=
  flat_map (fun e => match e with
                     | EUrlRetrieve url path _ => [(url, path)]
                     | _ => []
                     end) t.

(** [m] only prints. *)
Definition chatter (m : M unit) : Prop :=
  forall t, exists c, m t = (Return tt, t ++ c) /\ forallb is_console c = true.

(** From any trace, [m] ends in [r] after the events [q], console output
    left aside. *)
Definition yields {A} (m : M A) (r : outcome A) (q : list event) : Prop :=
  forall t, exists t', m t = (r, t ++ t') /\ quiet t' = q.

(** From traces that agree up to console output, [m1] and [m2] end alike
    and add the same events up to console output. *)
Definition sim {A} (m1 m2 : M A) : Prop :=
  forall t1 t2,
    quiet t1 = quiet t2 ->
    exists r t1' t2',
      m1 t1 = (r, t1 ++ t1') /\ m2 t2 = (r, t2 ++ t2') /\ quiet t1' = quiet t2'.

Definition with_debug (a : args) (d : bool) : args := {|
  target_url := target_url a;
  destination_directory := destination_directory a;
  debug_mode := d;
  file_types := file_types a;
  silent_mode := silent_mode a;
  halt_error := halt_error a;
  dry_run_mode := dry_run_mode a;
  wait_time := wait_time a
|}.

Definition with_silent (a : args) (s : bool) : args := {|
  target_url := target_url a;
  destination_directory := destination_directory a;
  debug_mode := debug_mode a;
  file_types := file_types a;
  silent_mode := s;
  halt_error := halt_error a;
  dry_run_mode := dry_run_mode a;
  wait_time := wait_time a
|}.

(** The links [find_hotlinks] selects and what [check_and_fix_protocol]
    makes of a list, as plain functions. *)
Definition selected_links (W : world) (html : string) (exts : exts_obj) : list string :=
  match deduped_hotlinks W html, exts with
  | Return deduped, StarLiteral => deduped
  | Return deduped, StrObj s => filter (keeps (Py.split "," s)) deduped
  | _, _ => []
  end.

(** What [find_hotlinks] ends in: the exception of the parser, the
    [AttributeError] of [None.split], or the selected links. *)
Definition hotlinks_outcome (W : world) (html : string) (exts : exts_obj)
  : outcome (list string) :=
  obind (deduped_hotlinks W html)
    (fun deduped =>
       match exts with
       | StarLiteral => Return deduped
       | StrObj s => Return (filter (keeps (Py.split "," s)) deduped)
       | NoneObj => Raise AttributeError
       end).

Definition normalized_links (target : string) (links : list string) : list string :=
  match Py.item0 (Py.split ":" target) with
  | Return scheme => map (with_scheme scheme) links
  | Raise _ => []
  end.

(** The probe file of a destination and the path of a link below it. *)
Definition probe_path (W : world) (dir : string) : string :=
  (dir ++ "/" ++ probe_name W)%string.

Definition target_path (dir url : string) : string :=
  (dir ++ "/" ++ filename_of url)%string.


(** A page whose markup the parser rejects. *)
Definition rejecting_world : world := {|
  probe_name := "0123456789";
  open_x_ok := fun _ => true;
  unlink_ok := fun _ => true;
  urlopen_ok := fun _ => true;
  response_read := fun _ => Some "<![x]>";
  html_parser := fun _ => Raise ParserRejectedMarkup;
  urlretrieve_ok := fun _ _ _ => true;
  urlretrieve_opened := fun _ _ _ => false;
  sleep_fits := fun n => ((-9223372036 <=? n) && (n <=? 9223372036))%Z
|}.

Definition bare_f_args : args := {|
  target_url := "http://example.com/page";
  destination_directory := "out";
  debug_mode := false;
  file_types := None;
  silent_mode := false;
  halt_error := false;
  dry_run_mode := false;
  wait_time := Return 1%Z
|}.

(** [time.sleep(n)] returns. *)
Definition sleeps (W : world) (n : Z) : bool :=
  sleep_fits W n && negb (n <? 0)%Z.

(** ** Files on disk

    What a path holds after a run: the probe, what was retrieved from a
    link, or what a retrieval that failed after opening the file left. *)
Inductive file : Type :=
| Probe
| Whole (url : string)
| Broken (url : string).

Definition disk : Type := string -> option file.

Definition disk_set (p : string) (f : option file) (d : disk) : disk :=
  fun q => if String.eqb q p then f else d q.

Definition disk_step (d : disk) (e : event) : disk :=
  match e with
  | EOpenX path true => disk_set path (Some Probe) d
  | EUnlink path true => disk_set path None d
  | EUrlRetrieve url path true => disk_set path (Some (Whole url)) d
  | ETruncate url path => disk_set path (Some (Broken url)) d
  | _ => d
  end.

Definition disk_after (t : list event) (d : disk) : disk :=
  fold_left disk_step t d.

Definition empty_disk : disk := fun _ => None.

(** Three links, the first two with the same last segment; the first
    retrieval succeeds and the second fails after opening its file. *)
Definition collision_world : world := {|
  probe_name := "0123456789";
  open_x_ok := fun _ => true;
  unlink_ok := fun _ => true;
  urlopen_ok := fun _ => true;
  response_read := fun _ => Some "<html>";
  html_parser := fun _ =>
    Return [Tag "a" [("href", "http://a.example/p.jpg")] [];
            Tag "a" [("href", "http://b.example/p.jpg")] [];
            Tag "a" [("href", "http://c.example/q.jpg")] []];
  urlretrieve_ok := fun n _ _ => Nat.eqb n 0;
  urlretrieve_opened := fun _ _ _ => true;
  sleep_fits := fun n => ((-9223372036 <=? n) && (n <=? 9223372036))%Z
|}.

(** ** Strings and lists *)

Lemma item0_slice_last {A} (l : list A) :
  Py.item0 (Py.slice_last l) = Py.item_last l.
Proof.
  unfold Py.slice_last.
  induction l as [|x r IH]; [reflexivity|].
  destruct r as [|y r']; [reflexivity|].
  change (Py.item_last (x :: y :: r')) with (Py.item_last (y :: r')).
  rewrite <- IH.
  replace (length (x :: y :: r') - 1) with (S (length (y :: r') - 1)) by (simpl; lia).
  reflexivity.
Qed.

Lemma contains_app c (s1 s2 : string) :
  Py.contains c (s1 ++ s2) = Py.contains c s1 || Py.contains c s2.
Proof.
  induction s1 as [|a r IH]; simpl; [reflexivity|].
  rewrite IH. now rewrite orb_assoc.
Qed.

(** The last piece of a split, and what it is in terms of the string. *)
Lemma split_last c (s : string) :
  exists e, Py.item_last (Py.split c s) = Return e /\
    ((Py.contains c s = false /\ e = s /\ Py.split c s = [s]) \/
     (exists p, s = (p ++ String c e)%string /\ Py.contains c e = false /\
                2 <= length (Py.split c s))).
Proof.
  induction s as [|a r IH].
  - exists EmptyString. split; [reflexivity|]. left. auto.
  - destruct IH as (e & He & Hc). simpl.
    destruct (Ascii.eqb a c) eqn:Eac.
    + apply Ascii.eqb_eq in Eac. subst a. exists e. split.
      * destruct (Py.split c r) as [|p0 ps] eqn:Es; [discriminate He|exact He].
      * right. destruct Hc as [(Hn & -> & Hs) | (p & -> & Hn & Hl)].
        -- exists EmptyString. rewrite Hs. simpl. auto.
        -- exists (String c p). repeat split; auto; simpl; lia.
    + destruct Hc as [(Hn & -> & Hs) | (p & -> & Hn & Hl)].
      * rewrite Hs. exists (String a r). split; [reflexivity|]. left. auto.
      * exists e. destruct (Py.split c (p ++ String c e)) as [|p0 [|p1 ps]] eqn:Es;
          simpl in Hl; try lia.
        split; [exact He|]. right. exists (String a p).
        repeat split; auto; simpl; lia.
Qed.

(** The first piece of a split. *)
Lemma split_first c (s : string) :
  exists p, Py.item0 (Py.split c s) = Return p /\
    ((exists rest, s = (p ++ String c rest)%string /\ Py.contains c p = false) \/
     (Py.contains c s = false /\ p = s)).
Proof.
  induction s as [|a r IH].
  - exists EmptyString. split; [reflexivity|]. right. auto.
  - simpl. destruct (Ascii.eqb a c) eqn:Eac.
    + apply Ascii.eqb_eq in Eac. subst a. exists EmptyString.
      split; [reflexivity|]. left. exists r. auto.
    + destruct IH as (p & Hp & Hc).
      destruct (Py.split c r) as [|p0 ps]; [discriminate Hp|].
      injection Hp as ->. exists (String a p). split; [reflexivity|].
      destruct Hc as [(rest & -> & Hn) | (Hn & ->)].
      * left. exists rest. simpl. rewrite Eac. auto.
      * right. auto.
Qed.

Lemma split_ends_with_sep c (u : string) :
  Py.item_last (Py.split c (u ++ String c EmptyString)) = Return EmptyString.
Proof.
  destruct (split_last c (u ++ String c EmptyString)) as (e & He & Hc).
  rewrite He. f_equal.
  destruct Hc as [(Hn & _) | (p & Hp & Hn & _)].
  - rewrite contains_app in Hn. simpl in Hn. rewrite Ascii.eqb_refl in Hn.
    rewrite orb_true_r in Hn. discriminate.
  - clear He. revert p Hp. induction u as [|a u IH]; intros p Hp.
    + destruct p as [|b p]; simpl in Hp.
      * now injection Hp.
      * injection Hp as _ Hp. destruct p; discriminate Hp.
    + destruct p as [|b p]; simpl in Hp.
      * injection Hp as -> Hp. subst e. rewrite contains_app in Hn. simpl in Hn.
        rewrite Ascii.eqb_refl in Hn. rewrite orb_true_r in Hn. discriminate.
      * injection Hp as _ Hp. eauto.
Qed.

Lemma extension_of_unique link e1 e2 :
  extension_of link e1 -> extension_of link e2 -> e1 = e2.
Proof.
  assert (Hdot : forall p e, Py.contains "." (p ++ String "." e) = true).
  { intros p e. rewrite contains_app. simpl. apply orb_true_r. }
  intros [(H1 & ->) | (p1 & -> & H1)] [(H2 & ->) | (p2 & E & H2)]; auto.
  - rewrite E, Hdot in H1. discriminate.
  - rewrite Hdot in H2. discriminate.
  - revert p2 E. induction p1 as [|a p1 IH]; intros [|b p2] E; simpl in E.
    + now injection E.
    + injection E as _ E. rewrite E, Hdot in H1. discriminate.
    + injection E as _ E. rewrite <- E, Hdot in H2. discriminate.
    + injection E as _ E. eauto.
Qed.

Lemma link_ext_of_spec link :
  exists e, link_ext_of link = Return e /\ extension_of link e.
Proof.
  unfold link_ext_of. rewrite item0_slice_last.
  destruct (split_last "." link) as (e & He & Hc).
  exists e. split; [exact He|].
  destruct Hc as [(Hn & -> & _) | (p & -> & Hn & _)].
  - left. auto.
  - right. exists p. auto.
Qed.

Lemma mem_In x l : Py.mem x l = true <-> In x l.
Proof.
  unfold Py.mem. rewrite existsb_exists. split.
  - intros (y & Hy & E). apply String.eqb_eq in E. now subst.
  - intros H. exists x. split; [exact H|apply String.eqb_refl].
Qed.

Lemma keeps_spec exts link :
  keeps exts link = true <-> exists e, extension_of link e /\ In e exts.
Proof.
  unfold keeps. destruct (link_ext_of_spec link) as (e & -> & He).
  rewrite mem_In. split.
  - intros H. exists e. auto.
  - intros (e' & He' & Hin). now rewrite (extension_of_unique _ _ _ He He').
Qed.

(** ** The ordered dictionary *)

Lemma keys_setitem k (d : Py.OrderedDict.t unit) :
  Py.OrderedDict.keys (Py.OrderedDict.setitem k tt d) =
  if Py.mem k (Py.OrderedDict.keys d) then Py.OrderedDict.keys d
  else Py.OrderedDict.keys d ++ [k].
Proof.
  induction d as [|[k' v'] r IH]; [reflexivity|].
  simpl. rewrite (String.eqb_sym k k').
  destruct (String.eqb k' k); simpl; [reflexivity|].
  rewrite IH. now destruct (Py.mem k (Py.OrderedDict.keys r)).
Qed.

Lemma filter_filter {A} (p q : A -> bool) l :
  filter p (filter q l) = filter (fun x => q x && p x) l.
Proof.
  induction l as [|x r IH]; [reflexivity|].
  simpl. destruct (q x); simpl; [destruct (p x)|]; now rewrite IH.
Qed.

Lemma mem_app x l1 l2 : Py.mem x (l1 ++ l2) = Py.mem x l1 || Py.mem x l2.
Proof. apply existsb_app. Qed.

Lemma fromkeys_from (l : list string) (d : Py.OrderedDict.t unit) :
  Py.OrderedDict.keys (fold_left (fun d k => Py.OrderedDict.setitem k tt d) l d) =
  Py.OrderedDict.keys d ++
  filter (fun y => negb (Py.mem y (Py.OrderedDict.keys d))) (first_occurrences l).
Proof.
  revert d. induction l as [|x r IH]; intros d.
  - simpl. now rewrite app_nil_r.
  - simpl fold_left. rewrite IH, keys_setitem. simpl first_occurrences. simpl filter.
    rewrite filter_filter.
    destruct (Py.mem x (Py.OrderedDict.keys d)) eqn:Ex; simpl.
    + f_equal. apply filter_ext. intros y.
      destruct (String.eqb y x) eqn:Eyx; simpl; [|reflexivity].
      apply String.eqb_eq in Eyx. subst y. now rewrite Ex.
    + rewrite <- app_assoc. simpl. do 2 f_equal. apply filter_ext. intros y.
      rewrite mem_app. simpl. rewrite orb_false_r, negb_orb. apply andb_comm.
Qed.

Lemma dedup_first_occurrences l : dedup l = first_occurrences l.
Proof.
  unfold dedup, Py.OrderedDict.fromkeys. rewrite fromkeys_from. simpl.
  induction (first_occurrences l) as [|x r IH]; simpl; congruence.
Qed.

Lemma first_occurrences_In x l : In x (first_occurrences l) <-> In x l.
Proof.
  induction l as [|y r IH]; simpl; [tauto|].
  rewrite filter_In, IH. split.
  - tauto.
  - intros [->|H]; [now left|].
    destruct (String.eqb x y) eqn:E.
    + apply String.eqb_eq in E. now left.
    + right. auto.
Qed.

Lemma first_occurrences_NoDup l : NoDup (first_occurrences l).
Proof.
  induction l as [|y r IH]; simpl; constructor.
  - rewrite filter_In. intros [_ H]. now rewrite String.eqb_refl in H.
  - now apply NoDup_filter.
Qed.




(** What [find_all_href] hands over has an href, so [link['href']] is
    defined on each of its tags. *)
Lemma collect_hrefs_total tags acc :
  Forall (fun n => has_attr "href" n = true) tags ->
  exists hs, collect_hrefs tags acc = Return (acc ++ hs) /\
             Forall2 (fun n h => getitem n "href" = Return h) tags hs.
Proof.
  intros H. revert acc. induction H as [|n tags Hn _ IH]; intros acc.
  - exists []. simpl. rewrite app_nil_r. auto.
  - simpl. unfold has_attr, getitem in *.
    destruct n as [nm attrs ch|txt]; [|discriminate Hn].
    destruct (attr_lookup "href" attrs) as [v|] eqn:Ev; [|discriminate Hn].
    simpl. destruct (IH (acc ++ [v])) as (hs & E & F).
    exists (v :: hs). rewrite E, <- app_assoc. split; [reflexivity|].
    constructor; auto. now rewrite Ev.
Qed.

Lemma find_all_href_has soup :
  Forall (fun n => has_attr "href" n = true) (find_all_href soup).
Proof.
  unfold find_all_href. rewrite Forall_forall. intros n Hn.
  apply filter_In in Hn. tauto.
Qed.

(** ** Running the monad *)

Lemma append_empty_r (s : string) : (s ++ "")%string = s.
Proof. induction s as [|a r IH]; simpl; congruence. Qed.

Ltac run :=
  unfold bind, ret, lift, raise, emit, when, print, print_obj, print_fmt, try_except;
  simpl.

Lemma forallb_console_app l1 l2 :
  forallb is_console l1 = true -> forallb is_console l2 = true ->
  forallb is_console (l1 ++ l2) = true.
Proof. intros H1 H2. rewrite forallb_app, H1, H2. reflexivity. Qed.

Lemma print_links_run (l : list string) t :
  for_each l (fun link => print_fmt (tab ++ "%s")%string [Py.FStr link]) t =
  (Return tt, t ++ map (fun link => EPrint (tab ++ link)%string) l).
Proof.
  revert t. induction l as [|x r IH]; intros t; simpl.
  - unfold ret. now rewrite app_nil_r.
  - run. rewrite IH, append_empty_r, <- app_assoc. reflexivity.
Qed.

Lemma print_links_console (l : list string) :
  forallb is_console (map (fun link => EPrint (tab ++ link)%string) l) = true.
Proof. induction l; simpl; auto. Qed.

Lemma filter_links_run exts debug links acc t :
  exists t', filter_links exts debug links acc t =
             (Return (acc ++ filter (keeps exts) links), t ++ t') /\
             forallb is_console t' = true.
Proof.
  revert acc t. induction links as [|link r IH]; intros acc t.
  - exists []. simpl. unfold ret. now rewrite !app_nil_r.
  - simpl. unfold keeps at 1.
    destruct (link_ext_of_spec link) as (e & He & _). rewrite He.
    destruct (IH (if Py.mem e exts then acc ++ [link] else acc)
                 (if debug
                  then t ++ [EPrint ("Checking " ++ link)%string; EPrint "Split: "; EPrint e]
                  else t)) as (t' & E & Hc).
    exists ((if debug
             then [EPrint ("Checking " ++ link)%string; EPrint "Split: "; EPrint e]
             else []) ++ t').
    split.
    + destruct debug; run; rewrite <- ?app_assoc; refine (eq_trans E _);
        destruct (Py.mem e exts); rewrite <- ?app_assoc; reflexivity.
    + apply forallb_console_app; [now destruct debug|exact Hc].
Qed.

Lemma fix_links_run protocol debug urls acc t :
  exists t', fix_links protocol debug urls acc t =
             (Return (acc ++ map (with_scheme protocol) urls), t ++ t') /\
             forallb is_console t' = true.
Proof.
  revert acc t. induction urls as [|link r IH]; intros acc t.
  - exists []. simpl. unfold ret. now rewrite !app_nil_r.
  - simpl. unfold with_scheme at 1.
    destruct (Py.contains ":" link) eqn:Ec.
    + destruct (IH (acc ++ [link])
                   (if debug
                    then t ++ [EPrint ("Link has protocol information: " ++ link)%string]
                    else t)) as (t' & E & Hc).
      exists ((if debug
               then [EPrint ("Link has protocol information: " ++ link)%string]
               else []) ++ t').
      split.
      * destruct debug; run; rewrite ?append_empty_r; refine (eq_trans E _);
          rewrite <- ?app_assoc; reflexivity.
      * apply forallb_console_app; [now destruct debug|exact Hc].
    + destruct (IH (acc ++ [(protocol ++ ":" ++ link)%string])
                   (if debug
                    then t ++ [EPrint "Link missing protocol information.";
                               EPrint ("New link: " ++ protocol ++ ":" ++ link)%string]
                    else t)) as (t' & E & Hc).
      exists ((if debug
               then [EPrint "Link missing protocol information.";
                     EPrint ("New link: " ++ protocol ++ ":" ++ link)%string]
               else []) ++ t').
      split.
      * destruct debug; run; rewrite ?append_empty_r, <- ?app_assoc;
          refine (eq_trans E _); rewrite <- ?app_assoc; reflexivity.
      * apply forallb_console_app; [now destruct debug|exact Hc].
Qed.

Lemma deduped_of_run soup :
  exists hotlinks,
    Forall2 (fun n h => getitem n "href" = Return h) (find_all_href soup) hotlinks /\
    deduped_of soup = Return (dedup hotlinks).
Proof.
  unfold deduped_of.
  destruct (collect_hrefs_total _ [] (find_all_href_has soup)) as (hs & E & F).
  exists hs. rewrite E. auto.
Qed.

(** ** Link extraction and filtering *)


(** C9. With the literal ['*'] as [exts], [find_hotlinks] returns the
    deduplicated sequence as it is (and ends as the parser does on a page
    it rejects); a command-line value of text [*] is that object. *)
Theorem find_hotlinks_allow_all W html debug t :
  exts_of_arg (Some "*") = StarLiteral /\
  exists t',
    find_hotlinks W html StarLiteral debug t = (deduped_hotlinks W html, t ++ t') /\
    forallb is_console t' = true.
Proof.
  split; [reflexivity|].
  unfold find_hotlinks, deduped_hotlinks.
  destruct (html_parser W html) as [soup|e].
  - destruct (deduped_of_run soup) as (hotlinks & _ & E).
    exists (if debug
            then EPrint "Finding hrefs."
                 :: map (fun link => EPrint (tab ++ link)%string) (dedup hotlinks)
            else []).
    split.
    + destruct debug; run; rewrite E; simpl.
      * rewrite print_links_run, <- app_assoc. reflexivity.
      * now rewrite app_nil_r.
    + destruct debug; [|reflexivity]. simpl. apply print_links_console.
  - exists []. run. now rewrite app_nil_r.
Qed.

(** C1. With an allow-list that is not the literal ['*'], [find_hotlinks]
    returns the deduplicated links, in order, whose text after the last
    ['.'] (the whole link when there is none) is one of the pieces of the
    allow-list split at [','], compared as strings; so a link without ['.']
    is kept exactly when the link itself is such a piece. This holds of
    every deduplicated sequence; on a page the parser rejects there is
    none and [find_hotlinks] ends as the parser does. *)
Theorem find_hotlinks_filter W html s debug t :
  (exists t',
     find_hotlinks W html (StrObj s) debug t =
     (omap (filter (keeps (Py.split "," s))) (deduped_hotlinks W html), t ++ t')) /\
  (forall link,
      keeps (Py.split "," s) link = true <->
      exists e, extension_of link e /\ In e (Py.split "," s)) /\
  (forall deduped link,
      In link (filter (keeps (Py.split "," s)) deduped) <->
      In link deduped /\ exists e, extension_of link e /\ In e (Py.split "," s)) /\
  (forall deduped link,
      Py.contains "." link = false ->
      (In link (filter (keeps (Py.split "," s)) deduped) <->
       In link deduped /\ In link (Py.split "," s))).
Proof.
  set (exts := Py.split "," s).
  assert (Hk : forall deduped link,
             In link (filter (keeps exts) deduped) <->
             In link deduped /\ exists e, extension_of link e /\ In e exts).
  { intros deduped link. now rewrite filter_In, keeps_spec. }
  split; [|split; [apply keeps_spec|split; [exact Hk|]]].
  - unfold find_hotlinks, deduped_hotlinks. fold exts.
    destruct (html_parser W html) as [soup|e];
      [|exists []; run; now rewrite app_nil_r].
    destruct (deduped_of_run soup) as (hotlinks & _ & E).
    set (kept := filter (keeps exts) (dedup hotlinks)).
    destruct (filter_links_run exts debug (dedup hotlinks) []
                (if debug
                 then t ++ [EPrint "Finding hrefs."; EPrint "Passed good extensions: ";
                            EPrintObj (ShownList exts)]
                 else t)) as (t1 & E1 & C1).
    exists ((if debug
              then [EPrint "Finding hrefs."; EPrint "Passed good extensions: ";
                    EPrintObj (ShownList exts)]
              else []) ++ t1 ++
             (if debug then map (fun link => EPrint (tab ++ link)%string) kept else [])).
    destruct debug; run; rewrite E; simpl; rewrite <- ?app_assoc; simpl;
      (match goal with
       | |- context [filter_links ?a ?b ?c ?d ?e] =>
           replace (filter_links a b c d e) with
             (Return kept, e ++ t1) by (symmetry; exact E1)
       end).
    + rewrite print_links_run, <- !app_assoc. reflexivity.
    + now rewrite app_nil_r.
  - intros deduped link Hn. rewrite Hk. split.
    + intros (Hin & e & He & Hine). split; [exact Hin|].
      assert (e = link) as <-; [|exact Hine].
      apply (extension_of_unique link); [exact He|]. left. auto.
    + intros (Hin & Hine). split; [exact Hin|]. exists link. split; [|exact Hine].
      left. auto.
Qed.

(** C3. [check_and_fix_protocol] returns, for every list of links, the list
    of the same length and order in which a link containing [':'] is itself
    and any other link is the text of the target before its first [':'],
    then [':'], then the link. *)
Theorem check_and_fix_protocol_map target urls debug t :
  exists scheme fixed t',
    check_and_fix_protocol target urls debug t = (Return fixed, t ++ t') /\
    scheme_of target scheme /\
    fixed = map (with_scheme scheme) urls /\
    length fixed = length urls /\
    (forall i link,
        nth_error urls i = Some link ->
        nth_error fixed i =
        Some (if Py.contains ":" link then link else (scheme ++ ":" ++ link)%string)).
Proof.
  destruct (split_first ":" target) as (p & Hp & Hs).
  destruct (fix_links_run p debug urls [] t) as (t' & E & _).
  exists p, (map (with_scheme p) urls), t'.
  split; [|split; [exact Hs|split; [reflexivity|split]]].
  - unfold check_and_fix_protocol. run. rewrite Hp. exact E.
  - apply length_map.
  - intros i link Hi. rewrite nth_error_map, Hi. reflexivity.
Qed.

(** ** Downloading *)

Lemma pair_app_nil {A B} (r : A) (t : list B) : (r, t) = (r, t ++ []).
Proof. now rewrite app_nil_r. Qed.

Lemma filename_of_run url :
  Py.item_last (Py.split "/" url) = Return (filename_of url).
Proof.
  unfold filename_of. destruct (split_last "/" url) as (f & -> & _). reflexivity.
Qed.

Lemma download_file_dry_run W url dest debug silent halt wait t :
  download_file W url dest debug silent halt true wait t =
  (Return true,
   t ++ (if silent then []
         else [downloading_line url dest; EPrint "[!] Dry Run, no file saved!";
               EPrint "[+] Done."])).
Proof.
  unfold download_file, downloading_line. rewrite filename_of_run.
  destruct silent; run.
  - now rewrite app_nil_r.
  - rewrite <- !app_assoc. reflexivity.
Qed.

Lemma download_all_dry_run W a wait links t :
  dry_run_mode a = true ->
  download_all W a wait links t =
  (Return tt,
   t ++ flat_map (fun link =>
                    if silent_mode a then []
                    else [downloading_line link (destination_directory a);
                          EPrint "[!] Dry Run, no file saved!"; EPrint "[+] Done."])
                 links).
Proof.
  intros Hd. unfold download_all. rewrite Hd. revert t.
  induction links as [|link r IH]; intros t; simpl.
  - unfold ret. now rewrite app_nil_r.
  - unfold bind at 1. unfold bind at 1.
    rewrite download_file_dry_run. unfold ret at 1.
    rewrite IH, <- app_assoc. reflexivity.
Qed.

(** C6. In a dry run [download_file] returns [True] for every link and
    does nothing but print (the three lines of its report, or nothing when
    silent): no retrieval, no file, no pause; the loop of [main] goes
    through every link in the same way. *)
Theorem dry_run_only_reports W a wait links t :
  dry_run_mode a = true ->
  (forall url dest debug silent halt t0,
      exists report,
        download_file W url dest debug silent halt true wait t0 =
        (Return true, t0 ++ report) /\
        forallb is_console report = true /\
        (silent = false ->
         report = [downloading_line url dest; EPrint "[!] Dry Run, no file saved!";
                   EPrint "[+] Done."])) /\
  exists reports,
    download_all W a wait links t = (Return tt, t ++ reports) /\
    forallb is_console reports = true /\
    (silent_mode a = false ->
     forall link, In link links ->
                  In (downloading_line link (destination_directory a)) reports).
Proof.
  intros Hd. split.
  - intros url dest debug silent halt t0. eexists. split.
    + apply download_file_dry_run.
    + split; [now destruct silent|]. now intros ->.
  - eexists. split; [now apply download_all_dry_run|]. split.
    + induction links as [|link r IH]; [reflexivity|].
      simpl. rewrite forallb_app, IH. now destruct (silent_mode a).
    + intros Hs link Hin. rewrite Hs. apply in_flat_map.
      exists link. split; [exact Hin|]. now left.
Qed.

Lemma dry_run_only_reports_witness :
  exists reports,
    download_all (scenario_world true (fun _ => false)) (scenario_args false true true) 1
      ["http://cdn.example.com/a.jpg"; "https://x.com/b.png"] [] = (Return tt, [] ++ reports) /\
    forallb is_console reports = true /\
    (silent_mode (scenario_args false true true) = false ->
     forall link,
       In link ["http://cdn.example.com/a.jpg"; "https://x.com/b.png"] ->
       In (downloading_line link (destination_directory (scenario_args false true true)))
          reports).
Proof.
  apply (dry_run_only_reports (scenario_world true (fun _ => false))
           (scenario_args false true true) 1
           ["http://cdn.example.com/a.jpg"; "https://x.com/b.png"] []).
  reflexivity.
Defined.

(** C10. For a URL that ends in ['/'] the derived file name is empty, the
    path handed to [urlretrieve] is the destination directory followed by
    ['/'], and [download_file] retrieves to no other path. *)
Theorem trailing_slash_empty_filename W u dest debug silent halt dry wait t :
  Py.item_last (Py.split "/" (u ++ "/")) = Return EmptyString /\
  exists r t',
    download_file W (u ++ "/") dest debug silent halt dry wait t = (r, t ++ t') /\
    (silent = false ->
     hd_error t' =
     Some (EPrint ("[+] Downloading " ++ (u ++ "/") ++ " to " ++ (dest ++ "/") ++ "...")%string)) /\
    (forall url path ok,
        In (EUrlRetrieve url path ok) t' ->
        url = (u ++ "/")%string /\ path = (dest ++ "/")%string).
Proof.
  split; [apply split_ends_with_sep|].
  unfold download_file. rewrite split_ends_with_sep.
  unfold urlretrieve, sleep.
  destruct silent, dry, debug, halt; run;
    repeat match goal with
      | |- context [urlretrieve_ok ?w ?n ?x ?y] => destruct (urlretrieve_ok w n x y)
      | |- context [urlretrieve_opened ?w ?n ?x ?y] => destruct (urlretrieve_opened w n x y)
      | |- context [sleep_fits ?w ?n] => destruct (sleep_fits w n)
      | |- context [(wait <? 0)%Z] => destruct (wait <? 0)%Z
      | _ => progress simpl
      end;
    rewrite <- ?app_assoc, ?append_empty_r; simpl;
    (eexists; eexists; split;
     [first [reflexivity | apply pair_app_nil]
     | split;
       [first [discriminate | intros _; reflexivity]
       | intros url path ok Hin; simpl in Hin;
         repeat (destruct Hin as [Hin|Hin]; [try discriminate Hin|]);
         try contradiction;
         injection Hin as <- <- _; rewrite ?append_empty_r; auto]]).
Qed.

(** ** Failures while downloading *)

Lemma for_each_app {A} (l1 l2 : list A) (body : A -> M unit) t :
  for_each (l1 ++ l2) body t =
  match for_each l1 body t with
  | (Return _, t1) => for_each l2 body t1
  | (Raise e, t1) => (Raise e, t1)
  end.
Proof.
  revert t. induction l1 as [|x r IH]; intros t; [reflexivity|].
  simpl. unfold bind. destruct (body x t) as [[u|e] t1]; auto.
Qed.

Lemma count_retrievals_app t1 t2 :
  count_retrievals (t1 ++ t2) = count_retrievals t1 + count_retrievals t2.
Proof. unfold count_retrievals. now rewrite filter_app, length_app. Qed.

(** A failed retrieval under halt-on-error: the handler builds the message
    of its [SystemExit] with [%] from a format without conversion, which
    raises [TypeError] in its place. *)
Lemma download_file_halt_failure W url dest debug silent wait t :
  urlretrieve_ok W (count_retrievals t) url (dest ++ "/" ++ filename_of url)%string = false ->
  download_file W url dest debug silent true false wait t =
  (Raise TypeError,
   t ++ (if silent then [] else [downloading_line url dest]) ++
   (if urlretrieve_opened W (count_retrievals t) url (dest ++ "/" ++ filename_of url)%string
    then [ETruncate url (dest ++ "/" ++ filename_of url)%string] else []) ++
   EUrlRetrieve url (dest ++ "/" ++ filename_of url)%string false ::
   (if debug then [EPrintObj (ShownExn EnvError)] else [])).
Proof.
  intros H. simpl in H. unfold download_file, downloading_line, urlretrieve.
  rewrite filename_of_run.
  destruct (urlretrieve_opened W (count_retrievals t) url
              (dest ++ "/" ++ filename_of url)) eqn:Eo; simpl in Eo.
  all: destruct silent, debug; run; rewrite ?count_retrievals_app; simpl;
    rewrite ?Nat.add_0_r, H, ?Eo; simpl; rewrite <- ?app_assoc; reflexivity.
Qed.

Lemma disk_after_app t1 t2 d : disk_after (t1 ++ t2) d = disk_after t2 (disk_after t1 d).
Proof. apply fold_left_app. Qed.

Lemma disk_after_console c d : forallb is_console c = true -> disk_after c d = d.
Proof.
  revert d. induction c as [|e c IH]; intros d H; [reflexivity|].
  simpl in H. apply andb_prop in H. destruct H as [He Hc].
  unfold disk_after. simpl. fold (disk_after c (disk_step d e)).
  rewrite IH by exact Hc. now destruct e.
Qed.

Lemma disk_set_other p q f d : q <> p -> disk_set p f d q = d q.
Proof.
  intros H. unfold disk_set. apply String.eqb_neq in H. now rewrite H.
Qed.

(** C5. Under halt-on-error, when the links before [link] have gone through
    and the retrieval of [link] fails, the loop of [main] is left by an
    exception there: the exit status is not zero, no link after it is
    attempted, and after the trace of the earlier links comes only the
    failed retrieval and console output. The files on disk are as the
    earlier links left them, except the file at the path of the failing
    link when the retrieval had opened it before failing. *)
Theorem halt_on_error_stops_batch W a wait pre link post t t1 :
  halt_error a = true ->
  dry_run_mode a = false ->
  download_all W a wait pre t = (Return tt, t1) ->
  urlretrieve_ok W (count_retrievals t1) link
    (destination_directory a ++ "/" ++ filename_of link)%string = false ->
  exists e c1 c2,
    download_all W a wait (pre ++ link :: post) t =
    (Raise e,
     t1 ++ c1 ++
     (if urlretrieve_opened W (count_retrievals t1) link
           (destination_directory a ++ "/" ++ filename_of link)%string
      then [ETruncate link (destination_directory a ++ "/" ++ filename_of link)%string]
      else []) ++
     EUrlRetrieve link (destination_directory a ++ "/" ++ filename_of link)%string false
     :: c2) /\
    exit_status (@Raise unit e) <> 0%Z /\
    forallb is_console c1 = true /\
    forallb is_console c2 = true /\
    (forall d p,
        p <> (destination_directory a ++ "/" ++ filename_of link)%string ->
        disk_after (snd (download_all W a wait (pre ++ link :: post) t)) d p =
        disk_after t1 d p) /\
    (urlretrieve_opened W (count_retrievals t1) link
       (destination_directory a ++ "/" ++ filename_of link)%string = false ->
     forall d p,
       disk_after (snd (download_all W a wait (pre ++ link :: post) t)) d p =
       disk_after t1 d p).
Proof.
  intros Hh Hd Hpre Hfail.
  exists TypeError.
  exists (if silent_mode a then [] else [downloading_line link (destination_directory a)]).
  exists (if debug_mode a then [EPrintObj (ShownExn EnvError)] else []).
  assert (C1 : forallb is_console
                 (if silent_mode a then []
                  else [downloading_line link (destination_directory a)]) = true)
    by now destruct (silent_mode a).
  assert (C2 : forallb is_console
                 (if debug_mode a then [EPrintObj (ShownExn EnvError)] else []) = true)
    by now destruct (debug_mode a).
  assert (E : download_all W a wait (pre ++ link :: post) t =
              (Raise TypeError,
               t1 ++ (if silent_mode a then []
                      else [downloading_line link (destination_directory a)]) ++
               (if urlretrieve_opened W (count_retrievals t1) link
                     (destination_directory a ++ "/" ++ filename_of link)%string
                then [ETruncate link
                        (destination_directory a ++ "/" ++ filename_of link)%string]
                else []) ++
               EUrlRetrieve link
                 (destination_directory a ++ "/" ++ filename_of link)%string false
               :: (if debug_mode a then [EPrintObj (ShownExn EnvError)] else []))).
  { unfold download_all in *. rewrite for_each_app, Hpre. simpl.
    unfold bind at 1. unfold bind at 1.
    rewrite Hh, Hd, (download_file_halt_failure _ _ _ _ _ _ _ Hfail). reflexivity. }
  split; [exact E|]. split; [discriminate|]. split; [exact C1|]. split; [exact C2|].
  rewrite E. cbn [snd].
  split.
  - intros d p Hp. rewrite !disk_after_app, (disk_after_console _ _ C1).
    destruct (urlretrieve_opened W (count_retrievals t1) link
                (destination_directory a ++ "/" ++ filename_of link)).
    + change (disk_after (?x :: ?r) ?d0) with (disk_after r (disk_step d0 x)).
      rewrite (disk_after_console _ _ C2). simpl. now apply disk_set_other.
    + change (disk_after [] ?d0) with d0.
      change (disk_after (?x :: ?r) ?d0) with (disk_after r (disk_step d0 x)).
      now rewrite (disk_after_console _ _ C2).
  - intros Ho d p. rewrite Ho, !disk_after_app, (disk_after_console _ _ C1).
    change (disk_after [] ?d0) with d0.
    change (disk_after (?x :: ?r) ?d0) with (disk_after r (disk_step d0 x)).
    now rewrite (disk_after_console _ _ C2).
Qed.

Lemma halt_on_error_stops_batch_witness :
  exists e c1 c2,
    download_all collision_world (scenario_args false true false) 1
      (["http://a.example/p.jpg"] ++ "http://b.example/p.jpg" :: ["http://c.example/q.jpg"])
      [] =
    (Raise e,
     [downloading_line "http://a.example/p.jpg" "out";
      EUrlRetrieve "http://a.example/p.jpg" "out/p.jpg" true;
      ESleep 1; EPrint "[+] Done."] ++ c1 ++
     [ETruncate "http://b.example/p.jpg" "out/p.jpg"] ++
     EUrlRetrieve "http://b.example/p.jpg" "out/p.jpg" false :: c2) /\
    exit_status (@Raise unit e) <> 0%Z /\
    forallb is_console c1 = true /\
    forallb is_console c2 = true /\
    (forall d p,
        p <> "out/p.jpg" ->
        disk_after
          (snd (download_all collision_world (scenario_args false true false) 1
                  (["http://a.example/p.jpg"] ++ "http://b.example/p.jpg"
                   :: ["http://c.example/q.jpg"]) [])) d p =
        disk_after
          [downloading_line "http://a.example/p.jpg" "out";
           EUrlRetrieve "http://a.example/p.jpg" "out/p.jpg" true;
           ESleep 1; EPrint "[+] Done."] d p) /\
    (true = false ->
     forall d p,
       disk_after
         (snd (download_all collision_world (scenario_args false true false) 1
                 (["http://a.example/p.jpg"] ++ "http://b.example/p.jpg"
                  :: ["http://c.example/q.jpg"]) [])) d p =
       disk_after
         [downloading_line "http://a.example/p.jpg" "out";
          EUrlRetrieve "http://a.example/p.jpg" "out/p.jpg" true;
          ESleep 1; EPrint "[+] Done."] d p).
Proof.
  apply (halt_on_error_stops_batch
           collision_world (scenario_args false true false) 1
           ["http://a.example/p.jpg"] "http://b.example/p.jpg" ["http://c.example/q.jpg"] []
           [downloading_line "http://a.example/p.jpg" "out";
            EUrlRetrieve "http://a.example/p.jpg" "out/p.jpg" true;
            ESleep 1; EPrint "[+] Done."]); reflexivity.
Defined.

(** C5, as first stated, fails: under halt-on-error the first link is
    retrieved to [out/p.jpg], the second link has the same last segment and
    its retrieval fails after opening the file; the run ends there, and the
    file of the first link no longer holds what was retrieved for it. *)
Lemma halt_on_error_clobbers_earlier_file :
  halt_error (scenario_args false true false) = true /\
  fst (download_all collision_world (scenario_args false true false) 1
         ["http://a.example/p.jpg"] []) = Return tt /\
  disk_after
    (snd (download_all collision_world (scenario_args false true false) 1
            ["http://a.example/p.jpg"] [])) empty_disk "out/p.jpg" =
  Some (Whole "http://a.example/p.jpg") /\
  fst (download_all collision_world (scenario_args false true false) 1
         ["http://a.example/p.jpg"; "http://b.example/p.jpg"; "http://c.example/q.jpg"] []) =
  Raise TypeError /\
  disk_after
    (snd (download_all collision_world (scenario_args false true false) 1
            ["http://a.example/p.jpg"; "http://b.example/p.jpg"; "http://c.example/q.jpg"]
            [])) empty_disk "out/p.jpg" =
  Some (Broken "http://b.example/p.jpg") /\
  ~ (forall p,
        disk_after
          (snd (download_all collision_world (scenario_args false true false) 1
                  ["http://a.example/p.jpg"; "http://b.example/p.jpg";
                   "http://c.example/q.jpg"] [])) empty_disk p =
        disk_after
          (snd (download_all collision_world (scenario_args false true false) 1
                  ["http://a.example/p.jpg"] [])) empty_disk p).
Proof.
  repeat split; try reflexivity.
  intros H. specialize (H "out/p.jpg"). discriminate H.
Qed.

(** C7. When the probe file cannot be created in the destination
    directory, [main] is left by an exception with a non-zero exit status
    and its trace holds no network event: neither the page nor any link is
    requested. Whenever the wait time is a number, the exception is the
    [SystemExit] of [check_if_valid_path] and the failed probe is in the
    trace; otherwise [main] has already ended on the conversion. *)
Theorem unwritable_destination_no_network W a t :
  open_x_ok W (destination_directory a ++ "/" ++ probe_name W)%string = false ->
  exists e t',
    main W a t = (Raise e, t ++ t') /\
    exit_status (@Raise unit e) <> 0%Z /\
    forallb (fun ev => negb (is_network ev)) t' = true /\
    (forall n, wait_time a = Return n ->
     e = SystemExit ("Error, could not write to destination directory "
                     ++ destination_directory a)%string /\
     In (EOpenX (destination_directory a ++ "/" ++ probe_name W)%string false) t').
Proof.
  intros H. simpl in H. unfold main, check_if_valid_path, open_x.
  destruct (wait_time a) as [n|e0];
    [|exists e0, []; repeat split;
      [apply pair_app_nil | now destruct e0 | discriminate | discriminate]].
  destruct (debug_mode a), (silent_mode a); run; rewrite H; simpl;
    rewrite ?append_empty_r, <- ?app_assoc; simpl;
    (eexists; eexists; split; [reflexivity|]; split; [discriminate|];
     split; [reflexivity|]; intros ? _; split; [reflexivity|simpl; tauto]).
Qed.

Lemma unwritable_destination_no_network_witness :
  exists e t',
    main (scenario_world false (fun _ => true)) (scenario_args false false false) [] =
    (Raise e, [] ++ t') /\
    exit_status (@Raise unit e) <> 0%Z /\
    forallb (fun ev => negb (is_network ev)) t' = true /\
    (forall n, Return 1%Z = Return n ->
     e = SystemExit "Error, could not write to destination directory out" /\
     In (EOpenX "out/0123456789" false) t').
Proof.
  apply (unwritable_destination_no_network
           (scenario_world false (fun _ => true)) (scenario_args false false false) []).
  reflexivity.
Defined.

(** Without halt-on-error a failed retrieval returns [False] only when
    silent: otherwise the handler prints [fmt % url] for a format without
    conversion, and that raises [TypeError] out of [download_file]. *)
Lemma download_file_failure W url dest debug silent wait t :
  urlretrieve_ok W (count_retrievals t) url (dest ++ "/" ++ filename_of url)%string = false ->
  download_file W url dest debug silent false false wait t =
  (if silent then Return false else Raise TypeError,
   t ++ (if silent then [] else [downloading_line url dest]) ++
   (if urlretrieve_opened W (count_retrievals t) url (dest ++ "/" ++ filename_of url)%string
    then [ETruncate url (dest ++ "/" ++ filename_of url)%string] else []) ++
   EUrlRetrieve url (dest ++ "/" ++ filename_of url)%string false ::
   (if debug then [EPrintObj (ShownExn EnvError)] else [])).
Proof.
  intros H. simpl in H. unfold download_file, downloading_line, urlretrieve.
  rewrite filename_of_run.
  destruct (urlretrieve_opened W (count_retrievals t) url
              (dest ++ "/" ++ filename_of url)) eqn:Eo; simpl in Eo.
  all: destruct silent, debug; run; rewrite ?count_retrievals_app; simpl;
    rewrite ?Nat.add_0_r, H, ?Eo; simpl; rewrite <- ?app_assoc; reflexivity.
Qed.

(** C4. Two links, the retrieval of the first fails, neither halt-on-error
    nor silent is set: [download_file] does not return [False] but raises
    [TypeError], and [main] ends there with exit status 1 without
    attempting the second link. With silent set the same failure returns
    [False] and the second link is attempted. *)
Theorem failed_download_ends_run_unless_silent :
  download_file (scenario_world true (fun _ => false))
    "http://cdn.example.com/a.jpg" "out" false false false false 1 [] =
  (Raise TypeError,
   [EPrint "[+] Downloading http://cdn.example.com/a.jpg to out/a.jpg...";
    EUrlRetrieve "http://cdn.example.com/a.jpg" "out/a.jpg" false]) /\
  fst (main (scenario_world true (fun _ => false)) (scenario_args false false false) []) =
  Raise TypeError /\
  exit_status (fst (main (scenario_world true (fun _ => false))
                      (scenario_args false false false) [])) = 1%Z /\
  filter is_retrieve
    (snd (main (scenario_world true (fun _ => false)) (scenario_args false false false) [])) =
  [EUrlRetrieve "http://cdn.example.com/a.jpg" "out/a.jpg" false] /\
  main (scenario_world true (fun _ => false)) (scenario_args true false false) [] =
  (Return tt,
   [EOpenX "out/0123456789" true; EUnlink "out/0123456789" true;
    EUrlOpen "http://example.com/page" true; ERead "http://example.com/page" true;
    EUrlRetrieve "http://cdn.example.com/a.jpg" "out/a.jpg" false;
    EUrlRetrieve "https://x.com/b.png" "out/b.png" false]).
Proof. repeat split; reflexivity. Qed.

(** C8. One link, one destination, one failing retrieval, halt-on-error
    not set: with silent set [download_file] returns [False], with silent
    unset it raises [TypeError]. The retrieval attempted is the same. *)
Theorem silent_changes_failure_result :
  download_file (scenario_world true (fun _ => false))
    "https://x.com/b.png" "out" false true false false 1 [] =
  (Return false, [EUrlRetrieve "https://x.com/b.png" "out/b.png" false]) /\
  download_file (scenario_world true (fun _ => false))
    "https://x.com/b.png" "out" false false false false 1 [] =
  (Raise TypeError,
   [EPrint "[+] Downloading https://x.com/b.png to out/b.png...";
    EUrlRetrieve "https://x.com/b.png" "out/b.png" false]).
Proof. split; reflexivity. Qed.

(** ** The scenarios of the specification *)

(** Scenario 1: three hrefs, one repeated; both links pass the filter and
    the scheme-less one takes the scheme of the page. *)
Example scenario_links :
  exists t1 t2,
    find_hotlinks (scenario_world true (fun _ => true)) "<html>"
      (StrObj "jpg,jpeg,png,gif") false [] =
    (Return ["//cdn.example.com/a.jpg"; "https://x.com/b.png"], t1) /\
    check_and_fix_protocol "http://example.com/page"
      ["//cdn.example.com/a.jpg"; "https://x.com/b.png"] false [] =
    (Return ["http://cdn.example.com/a.jpg"; "https://x.com/b.png"], t2).
Proof. do 2 eexists. split; reflexivity. Qed.

(** Scenario 2: the comparison with the allow-list is by exact text. *)
Example scenario_uppercase_dropped :
  keeps (Py.split "," "pdf") "https://x.com/report.PDF" = false /\
  keeps (Py.split "," "pdf") "https://x.com/report.pdf" = true /\
  keeps (Py.split "," "pdf") "https://x.com/file.pdf?x=1" = false.
Proof. repeat split; reflexivity. Qed.

(** Scenario 4: halt-on-error, the second of three links fails. *)
Example scenario_halt :
  fst (download_all (scenario_world true (fun n => Nat.eqb n 0))
         (scenario_args true true false) 1
         ["http://a/1.jpg"; "http://a/2.jpg"; "http://a/3.jpg"] []) = Raise TypeError /\
  snd (download_all (scenario_world true (fun n => Nat.eqb n 0))
         (scenario_args true true false) 1
         ["http://a/1.jpg"; "http://a/2.jpg"; "http://a/3.jpg"] []) =
  [EUrlRetrieve "http://a/1.jpg" "out/1.jpg" true; ESleep 1;
   EUrlRetrieve "http://a/2.jpg" "out/2.jpg" false].
Proof. split; reflexivity. Qed.


(** ** Traces up to console output *)

Lemma quiet_app t1 t2 : quiet (t1 ++ t2) = quiet t1 ++ quiet t2.
Proof. apply filter_app. Qed.

Lemma quiet_console c : forallb is_console c = true -> quiet c = [].
Proof.
  induction c as [|e c IH]; simpl; [reflexivity|].
  intros H. apply andb_prop in H. destruct H as [He Hc].
  rewrite He. simpl. auto.
Qed.

Lemma count_retrievals_quiet t : count_retrievals (quiet t) = count_retrievals t.
Proof.
  unfold count_retrievals, quiet.
  induction t as [|e t IH]; [reflexivity|].
  destruct e; simpl; auto.
Qed.

Lemma retrieved_app t1 t2 : retrieved (t1 ++ t2) = retrieved t1 ++ retrieved t2.
Proof. apply flat_map_app. Qed.

Lemma retrieved_quiet t : retrieved (quiet t) = retrieved t.
Proof.
  unfold retrieved, quiet.
  induction t as [|e t IH]; [reflexivity|].
  destruct e; simpl; congruence.
Qed.

Lemma chatter_ret : chatter (ret tt).
Proof. intros t. exists []. unfold ret. now rewrite app_nil_r. Qed.

Lemma chatter_print line : chatter (print line).
Proof. intros t. exists [EPrint line]. auto. Qed.

Lemma chatter_print_obj o : chatter (print_obj o).
Proof. intros t. exists [EPrintObj o]. auto. Qed.

Lemma chatter_seq (m k : M unit) : chatter m -> chatter k -> chatter (m ;; k).
Proof.
  intros Hm Hk t. destruct (Hm t) as (c1 & E1 & C1).
  destruct (Hk (t ++ c1)) as (c2 & E2 & C2).
  exists (c1 ++ c2). unfold bind. rewrite E1, E2, app_assoc.
  split; [reflexivity|now apply forallb_console_app].
Qed.

Lemma chatter_when b m : chatter m -> chatter (when b m).
Proof. destruct b; simpl; [auto|intros _; apply chatter_ret]. Qed.

Lemma chatter_print_fmt fmt args line :
  Py.percent fmt args = Return line -> chatter (print_fmt fmt args).
Proof.
  intros H t. exists [EPrint line]. unfold print_fmt, bind, lift. rewrite H. auto.
Qed.

Lemma chatter_for_each {A} (l : list A) body :
  (forall x, chatter (fun t => body x t)) -> chatter (for_each l body).
Proof.
  intros H. induction l as [|x r IH]; simpl; [apply chatter_ret|].
  apply chatter_seq; [apply (H x)|exact IH].
Qed.

Lemma chatter_print_links l :
  chatter (for_each l (fun link => print_fmt (tab ++ "%s")%string [Py.FStr link])).
Proof.
  intros t. exists (map (fun link => EPrint (tab ++ link)%string) l).
  split; [apply print_links_run|apply print_links_console].
Qed.

Lemma yields_ret {A} (a : A) : yields (ret a) (Return a) [].
Proof. intros t. exists []. unfold ret. now rewrite app_nil_r. Qed.

Lemma yields_lift {A} (o : outcome A) : yields (lift o) o [].
Proof. intros t. exists []. unfold lift. now rewrite app_nil_r. Qed.

Lemma yields_chatter m : chatter m -> yields m (Return tt) [].
Proof.
  intros H t. destruct (H t) as (c & E & C). exists c. split; [exact E|].
  now apply quiet_console.
Qed.

Lemma yields_bind {A B} (m : M A) (k : A -> M B) a q1 r q2 :
  yields m (Return a) q1 -> yields (k a) r q2 -> yields (bind m k) r (q1 ++ q2).
Proof.
  intros Hm Hk t. destruct (Hm t) as (t1 & E1 & Q1).
  destruct (Hk (t ++ t1)) as (t2 & E2 & Q2).
  exists (t1 ++ t2). unfold bind. rewrite E1, E2, app_assoc, quiet_app, Q1, Q2. auto.
Qed.

Lemma yields_bind_raise {A B} (m : M A) (k : A -> M B) e q :
  yields m (Raise e) q -> yields (bind m k) (Raise e) q.
Proof.
  intros Hm t. destruct (Hm t) as (t1 & E1 & Q1).
  exists t1. unfold bind. rewrite E1. auto.
Qed.

Lemma yields_try_return {A} (body : M A) handler a q :
  yields body (Return a) q -> yields (try_except body handler) (Return a) q.
Proof.
  intros Hb t. destruct (Hb t) as (t1 & E1 & Q1).
  exists t1. unfold try_except. rewrite E1. auto.
Qed.

Lemma yields_try_raise {A} (body : M A) handler e q1 r q2 :
  yields body (Raise e) q1 -> yields (handler e) r q2 ->
  yields (try_except body handler) r (q1 ++ q2).
Proof.
  intros Hb Hh t. destruct (Hb t) as (t1 & E1 & Q1).
  destruct (Hh (t ++ t1)) as (t2 & E2 & Q2).
  exists (t1 ++ t2). unfold try_except. rewrite E1, E2, app_assoc, quiet_app, Q1, Q2. auto.
Qed.

Lemma yields_sim {A} (m1 m2 : M A) r q : yields m1 r q -> yields m2 r q -> sim m1 m2.
Proof.
  intros H1 H2 t1 t2 _. destruct (H1 t1) as (t1' & E1 & Q1).
  destruct (H2 t2) as (t2' & E2 & Q2).
  exists r, t1', t2'. rewrite Q1, Q2. auto.
Qed.

Lemma sim_bind {A B} (m1 m2 : M A) (k1 k2 : A -> M B) :
  sim m1 m2 -> (forall a, sim (k1 a) (k2 a)) -> sim (bind m1 k1) (bind m2 k2).
Proof.
  intros Hm Hk t1 t2 Hq. destruct (Hm t1 t2 Hq) as (r & t1' & t2' & E1 & E2 & Q).
  unfold bind. rewrite E1, E2. destruct r as [a|e].
  - destruct (Hk a (t1 ++ t1') (t2 ++ t2')) as (r & u1 & u2 & F1 & F2 & Q').
    { now rewrite !quiet_app, Hq, Q. }
    exists r, (t1' ++ u1), (t2' ++ u2).
    rewrite F1, F2, !app_assoc, !quiet_app, Q, Q'. auto.
  - exists (Raise e), t1', t2'. auto.
Qed.

Lemma sim_for_each {A} (l : list A) body1 body2 :
  (forall x, sim (fun t => body1 x t) (fun t => body2 x t)) ->
  sim (for_each l body1) (for_each l body2).
Proof.
  intros H. induction l as [|x r IH]; simpl.
  - apply (yields_sim _ _ (Return tt) []); apply yields_ret.
  - apply sim_bind; [apply (H x)|intros _; exact IH].
Qed.

Lemma yields_bind_nil {A B} (m : M A) (k : A -> M B) a r q :
  yields m (Return a) [] -> yields (k a) r q -> yields (bind m k) r q.
Proof. intros Hm Hk. apply (yields_bind m k a [] r q Hm Hk). Qed.

Lemma yields_seq_chatter {B} (m : M unit) (k : M B) r q :
  chatter m -> yields k r q -> yields (m ;; k) r q.
Proof.
  intros Hm Hk. apply (yields_bind_nil m (fun _ => k) tt); [|exact Hk].
  now apply yields_chatter.
Qed.

(** ** The steps of [main], up to console output *)

Lemma check_if_valid_path_yields W path debug :
  yields (check_if_valid_path W path debug)
    (if open_x_ok W (probe_path W path) && unlink_ok W (probe_path W path)
     then Return true
     else Raise (SystemExit
                   ("Error, could not write to destination directory " ++ path)%string))
    (EOpenX (probe_path W path) (open_x_ok W (probe_path W path))
     :: (if open_x_ok W (probe_path W path)
         then [EUnlink (probe_path W path) (unlink_ok W (probe_path W path))]
         else [])).
Proof.
  intros t. unfold check_if_valid_path, open_x, unlink, probe_path.
  destruct (open_x_ok W (path ++ "/" ++ probe_name W)) eqn:Eo;
    [destruct (unlink_ok W (path ++ "/" ++ probe_name W)) eqn:Eu|];
    simpl in *; destruct debug; run; rewrite ?Eo; simpl; rewrite ?Eu; simpl;
    rewrite ?append_empty_r, <- ?app_assoc; simpl;
    eexists; (split; [reflexivity|reflexivity]).
Qed.

Lemma get_target_html_yields W url debug :
  yields (get_target_html W url debug)
    (match urlopen_ok W url, response_read W url with
     | true, Some html => Return html
     | _, _ => Raise (SystemExit ("Error, could not connect to target " ++ url)%string)
     end)
    (EUrlOpen url (urlopen_ok W url)
     :: (if urlopen_ok W url
         then [ERead url (match response_read W url with Some _ => true | None => false end)]
         else [])).
Proof.
  intros t. unfold get_target_html, urlopen, read.
  destruct (urlopen_ok W url) eqn:Eo;
    [destruct (response_read W url) as [html|] eqn:Er|];
    destruct debug; run; rewrite ?Eo; simpl; rewrite ?Er; simpl;
    rewrite ?append_empty_r, <- ?app_assoc; simpl;
    eexists; (split; [reflexivity|reflexivity]).
Qed.

Lemma filter_links_yields exts debug links acc :
  yields (filter_links exts debug links acc)
    (Return (acc ++ filter (keeps exts) links)) [].
Proof.
  intros t. destruct (filter_links_run exts debug links acc t) as (t' & E & C).
  exists t'. split; [exact E|now apply quiet_console].
Qed.

Lemma yields_raise {A} (e : exn) : yields (@raise A e) (Raise e) [].
Proof. intros t. exists []. unfold raise. now rewrite app_nil_r. Qed.

Lemma find_hotlinks_yields W html exts debug :
  yields (find_hotlinks W html exts debug) (hotlinks_outcome W html exts) [].
Proof.
  unfold find_hotlinks, hotlinks_outcome, deduped_hotlinks.
  destruct (html_parser W html) as [soup|e]; simpl.
  2: { apply yields_bind_raise. apply yields_lift. }
  apply (yields_bind_nil _ _ soup); [apply yields_lift|].
  destruct (deduped_of_run soup) as (hotlinks & _ & E). rewrite E. simpl.
  apply yields_seq_chatter; [apply chatter_when, chatter_print|].
  apply (yields_bind_nil _ _ (dedup hotlinks)); [apply yields_lift|].
  destruct exts as [|s|].
  - apply (yields_bind_nil _ _ (dedup hotlinks)); [apply yields_ret|].
    apply yields_seq_chatter; [apply chatter_when, chatter_print_links|apply yields_ret].
  - apply (yields_bind_nil _ _ (filter (keeps (Py.split "," s)) (dedup hotlinks))).
    + apply yields_seq_chatter.
      * apply chatter_when, chatter_seq; [apply chatter_print|apply chatter_print_obj].
      * apply (filter_links_yields _ _ _ []).
    + apply yields_seq_chatter; [apply chatter_when, chatter_print_links|apply yields_ret].
  - apply yields_bind_raise, yields_raise.
Qed.

Lemma hotlinks_outcome_selected W html exts soup :
  html_parser W html = Return soup ->
  exts <> NoneObj ->
  hotlinks_outcome W html exts = Return (selected_links W html exts).
Proof.
  intros Hp Hn. unfold hotlinks_outcome, selected_links, deduped_hotlinks.
  rewrite Hp. simpl. destruct (deduped_of_run soup) as (hotlinks & _ & ->). simpl.
  now destruct exts.
Qed.

Lemma check_and_fix_protocol_yields target urls debug :
  yields (check_and_fix_protocol target urls debug)
    (Return (normalized_links target urls)) [].
Proof.
  intros t. unfold check_and_fix_protocol, normalized_links.
  destruct (split_first ":" target) as (p & Hp & _). rewrite Hp.
  destruct (fix_links_run p debug urls [] t) as (t' & E & C).
  exists t'. unfold bind, lift. split; [exact E|now apply quiet_console].
Qed.

(** What one call of [download_file] comes to. *)
Lemma download_file_run W url dest debug silent halt dry wait t :
  exists t',
    download_file W url dest debug silent halt dry wait t =
    (if dry || (urlretrieve_ok W (count_retrievals t) url (target_path dest url)
                && sleeps W wait)
     then Return true
     else if halt then Raise TypeError
          else if silent then Return false else Raise TypeError,
     t ++ t') /\
    quiet t' =
    (if dry then []
     else (if negb (urlretrieve_ok W (count_retrievals t) url (target_path dest url))
              && urlretrieve_opened W (count_retrievals t) url (target_path dest url)
           then [ETruncate url (target_path dest url)] else [])
          ++ EUrlRetrieve url (target_path dest url)
               (urlretrieve_ok W (count_retrievals t) url (target_path dest url))
          :: (if urlretrieve_ok W (count_retrievals t) url (target_path dest url)
                 && sleeps W wait
              then [ESleep wait] else [])).
Proof.
  unfold target_path, sleeps.
  destruct (urlretrieve_ok W (count_retrievals t) url (dest ++ "/" ++ filename_of url))
    eqn:E;
    destruct (urlretrieve_opened W (count_retrievals t) url
                (dest ++ "/" ++ filename_of url)) eqn:Eo.
  all: simpl in E, Eo; unfold download_file, urlretrieve, sleep; rewrite filename_of_run.
  all: destruct (sleep_fits W wait); destruct (wait <? 0)%Z;
    destruct silent, dry, debug, halt; run;
    rewrite ?count_retrievals_app; simpl; rewrite ?Nat.add_0_r, ?E, ?Eo; simpl;
    rewrite <- ?app_assoc; simpl;
    eexists; (split; [first [reflexivity|apply pair_app_nil]|reflexivity]).
Qed.

Ltac chat :=
  repeat first
    [ apply chatter_ret | apply chatter_print | apply chatter_print_obj
    | apply chatter_print_links | apply chatter_when | apply chatter_seq
    | (eapply chatter_print_fmt; reflexivity) ].

Lemma main_until_check W a n r q :
  wait_time a = Return n ->
  yields (check_if_valid_path W (destination_directory a) (debug_mode a)) (Raise r) q ->
  yields (main W a) (Raise r) q.
Proof.
  intros Hw Hc. unfold main. rewrite Hw.
  apply (yields_bind_nil _ _ n); [apply yields_lift|].
  apply yields_seq_chatter; [chat|].
  apply yields_seq_chatter; [chat|].
  now apply yields_bind_raise.
Qed.


Lemma main_until_links W a n html q1 q2 e :
  wait_time a = Return n ->
  yields (check_if_valid_path W (destination_directory a) (debug_mode a)) (Return true) q1 ->
  yields (get_target_html W (target_url a) (debug_mode a)) (Return html) q2 ->
  yields (find_hotlinks W html (exts_of_arg (file_types a)) (debug_mode a)) (Raise e) [] ->
  yields (main W a) (Raise e) (q1 ++ q2).
Proof.
  intros Hw Hc Hg Hf. unfold main. rewrite Hw.
  apply (yields_bind_nil _ _ n); [apply yields_lift|].
  apply yields_seq_chatter; [chat|].
  apply yields_seq_chatter; [chat|].
  apply (yields_bind _ _ true); [exact Hc|].
  rewrite <- (app_nil_r q2).
  apply (yields_bind _ _ html); [exact Hg|].
  now apply yields_bind_raise.
Qed.

Lemma find_hotlinks_selected W html exts debug soup :
  html_parser W html = Return soup ->
  exts <> NoneObj ->
  yields (find_hotlinks W html exts debug) (Return (selected_links W html exts)) [].
Proof.
  intros Hp Hn. rewrite <- (hotlinks_outcome_selected W html exts soup Hp Hn).
  apply find_hotlinks_yields.
Qed.

Lemma main_until_downloads W a n html soup q1 q2 r q3 :
  wait_time a = Return n ->
  yields (check_if_valid_path W (destination_directory a) (debug_mode a)) (Return true) q1 ->
  yields (get_target_html W (target_url a) (debug_mode a)) (Return html) q2 ->
  html_parser W html = Return soup ->
  exts_of_arg (file_types a) <> NoneObj ->
  yields (download_all W a n
            (normalized_links (target_url a)
               (selected_links W html (exts_of_arg (file_types a))))) r q3 ->
  yields (main W a) r (q1 ++ q2 ++ q3).
Proof.
  intros Hw Hc Hg Hs Hn Hd. unfold main. rewrite Hw.
  apply (yields_bind_nil _ _ n); [apply yields_lift|].
  apply yields_seq_chatter; [chat|].
  apply yields_seq_chatter; [chat|].
  apply (yields_bind _ _ true); [exact Hc|].
  apply (yields_bind _ _ html); [exact Hg|].
  apply (yields_bind_nil _ _ (selected_links W html (exts_of_arg (file_types a))));
    [now apply (find_hotlinks_selected W html _ _ soup)|].
  apply (yields_bind_nil _ _
           (normalized_links (target_url a)
              (selected_links W html (exts_of_arg (file_types a)))));
    [apply check_and_fix_protocol_yields|].
  apply yields_seq_chatter; [chat|]. exact Hd.
Qed.

Lemma probe_ok_yields W path debug :
  open_x_ok W (probe_path W path) = true ->
  unlink_ok W (probe_path W path) = true ->
  yields (check_if_valid_path W path debug) (Return true)
    [EOpenX (probe_path W path) true; EUnlink (probe_path W path) true].
Proof.
  intros Ho Hu. pose proof (check_if_valid_path_yields W path debug) as H.
  now rewrite Ho, Hu in H.
Qed.

Lemma fetch_ok_yields W url debug html :
  urlopen_ok W url = true ->
  response_read W url = Some html ->
  yields (get_target_html W url debug) (Return html) [EUrlOpen url true; ERead url true].
Proof.
  intros Ho Hr. pose proof (get_target_html_yields W url debug) as H.
  now rewrite Ho, Hr in H.
Qed.

(** ** The download loop *)

Lemma download_all_cons W a wait link links t :
  download_all W a wait (link :: links) t =
  match download_file W link (destination_directory a) (debug_mode a) (silent_mode a)
          (halt_error a) (dry_run_mode a) wait t with
  | (Return _, t1) => download_all W a wait links t1
  | (Raise e, t1) => (Raise e, t1)
  end.
Proof.
  unfold download_all. simpl. unfold bind at 1. unfold bind at 1.
  destruct (download_file W link (destination_directory a) (debug_mode a)
              (silent_mode a) (halt_error a) (dry_run_mode a) wait t) as [[b|e] t1];
    reflexivity.
Qed.

Lemma download_all_dry_yields W a wait links :
  dry_run_mode a = true -> yields (download_all W a wait links) (Return tt) [].
Proof.
  intros Hd t. rewrite (download_all_dry_run W a wait links t Hd).
  eexists. split; [reflexivity|]. apply quiet_console.
  induction links as [|link r IH]; [reflexivity|].
  simpl. rewrite forallb_app, IH. now destruct (silent_mode a).
Qed.

Lemma download_all_succeed_yields W a wait links :
  (forall n url path, urlretrieve_ok W n url path = true) ->
  sleep_fits W wait = true ->
  (0 <= wait)%Z ->
  dry_run_mode a = false ->
  yields (download_all W a wait links) (Return tt)
    (flat_map (fun link =>
                 [EUrlRetrieve link (target_path (destination_directory a) link) true;
                  ESleep wait]) links).
Proof.
  intros Hok Hf Hw Hd. induction links as [|link r IH]; intros t.
  - exists []. unfold download_all. simpl. unfold ret. now rewrite app_nil_r.
  - rewrite download_all_cons, Hd.
    destruct (download_file_run W link (destination_directory a) (debug_mode a)
                (silent_mode a) (halt_error a) false wait t) as (t1 & E & Q).
    unfold sleeps in E, Q. apply Z.ltb_ge in Hw.
    rewrite Hok, Hf, Hw in E, Q. simpl in E, Q.
    rewrite E. destruct (IH (t ++ t1)) as (t2 & E2 & Q2).
    exists (t1 ++ t2). rewrite E2, app_assoc, quiet_app, Q, Q2. auto.
Qed.

Lemma download_all_order W a wait links t :
  exists r t' k,
    download_all W a wait links t = (r, t ++ t') /\
    retrieved t' =
    map (fun link => (link, target_path (destination_directory a) link)) (firstn k links) /\
    (r = Return tt -> dry_run_mode a = false -> k = length links) /\
    (dry_run_mode a = true -> r = Return tt /\ k = 0) /\
    (silent_mode a = true -> halt_error a = false -> r = Return tt).
Proof.
  destruct (dry_run_mode a) eqn:Hd.
  - destruct (download_all_dry_yields W a wait links Hd t) as (t' & E & Q).
    exists (Return tt), t', 0. rewrite <- retrieved_quiet, Q.
    repeat split; auto; discriminate.
  - revert t. induction links as [|link r IH]; intros t.
    + exists (Return tt), [], 0. unfold download_all. simpl. unfold ret.
      rewrite app_nil_r. repeat split; auto; discriminate.
    + rewrite download_all_cons, Hd.
      destruct (download_file_run W link (destination_directory a) (debug_mode a)
                  (silent_mode a) (halt_error a) false wait t) as (t1 & E & Q).
      simpl in E, Q. rewrite E.
      assert (R : retrieved t1 = [(link, target_path (destination_directory a) link)]).
      { rewrite <- retrieved_quiet, Q, retrieved_app.
        destruct (negb (urlretrieve_ok W (count_retrievals t) link
                          (target_path (destination_directory a) link))
                  && urlretrieve_opened W (count_retrievals t) link
                       (target_path (destination_directory a) link));
          now destruct (urlretrieve_ok W (count_retrievals t) link
                          (target_path (destination_directory a) link) && sleeps W wait). }
      destruct (IH (t ++ t1)) as (r' & t2 & k & E2 & R2 & F2 & _ & S2).
      destruct (urlretrieve_ok W (count_retrievals t) link
                  (target_path (destination_directory a) link) && sleeps W wait);
        [|destruct (halt_error a) eqn:Hh; [|destruct (silent_mode a) eqn:Hs]].
      all: first
        [ exists (Raise TypeError), t1, 1; rewrite R;
          repeat split; auto; discriminate
        | exists r', (t1 ++ t2), (S k);
          rewrite E2, app_assoc, retrieved_app, R, R2;
          repeat split; auto; try discriminate;
          intros Hr Hx; simpl; f_equal; auto ].
Qed.

(** ** Flags that only change the console output *)

Lemma sim_download_file W url dest d1 d2 s1 s2 halt dry wait :
  s1 = s2 \/ halt = true \/ dry = true ->
  sim (download_file W url dest d1 s1 halt dry wait)
      (download_file W url dest d2 s2 halt dry wait).
Proof.
  intros H t1 t2 Hq.
  destruct (download_file_run W url dest d1 s1 halt dry wait t1) as (u1 & E1 & Q1).
  destruct (download_file_run W url dest d2 s2 halt dry wait t2) as (u2 & E2 & Q2).
  assert (Hc : count_retrievals t1 = count_retrievals t2).
  { now rewrite <- (count_retrievals_quiet t1), Hq, count_retrievals_quiet. }
  rewrite Hc in E1, Q1.
  eexists. exists u1, u2. split; [exact E1|]. split; [|now rewrite Q1, Q2].
  rewrite E2. f_equal.
  destruct (dry || (urlretrieve_ok W (count_retrievals t2) url (target_path dest url)
                    && sleeps W wait)) eqn:Ed; [reflexivity|].
  destruct H as [->|[->| ->]]; [reflexivity|reflexivity|discriminate Ed].
Qed.

Lemma sim_main W a d1 d2 s1 s2 :
  s1 = s2 \/ halt_error a = true \/ dry_run_mode a = true ->
  sim (main W (with_silent (with_debug a d1) s1))
      (main W (with_silent (with_debug a d2) s2)).
Proof.
  intros H. unfold main. simpl.
  apply sim_bind; [eapply yields_sim; apply yields_lift|]. intros n.
  apply sim_bind; [eapply yields_sim; apply yields_chatter; chat|]. intros _.
  apply sim_bind; [eapply yields_sim; apply yields_chatter; chat|]. intros _.
  apply sim_bind; [eapply yields_sim; apply check_if_valid_path_yields|]. intros _.
  apply sim_bind; [eapply yields_sim; apply get_target_html_yields|]. intros html.
  apply sim_bind; [eapply yields_sim; apply find_hotlinks_yields|]. intros found.
  apply sim_bind; [eapply yields_sim; apply check_and_fix_protocol_yields|]. intros links.
  apply sim_bind; [eapply yields_sim; apply yields_chatter; chat|]. intros _.
  unfold download_all. simpl. apply sim_for_each. intros link.
  apply sim_bind; [now apply sim_download_file|].
  intros _. eapply yields_sim; apply yields_ret.
Qed.

(** ** Further properties of the script *)

(** X1. [check_if_valid_path] returns [True] when the probe file was created
    and removed, and otherwise raises [SystemExit] with its message, also
    when the probe was created and could not be removed; it never returns
    [False], and it touches nothing but the probe file. *)
Theorem check_if_valid_path_true_or_exit W path debug t :
  exists t',
    check_if_valid_path W path debug t =
    (if open_x_ok W (probe_path W path) && unlink_ok W (probe_path W path)
     then Return true
     else Raise (SystemExit
                   ("Error, could not write to destination directory " ++ path)%string),
     t ++ t') /\
    quiet t' =
    EOpenX (probe_path W path) (open_x_ok W (probe_path W path))
    :: (if open_x_ok W (probe_path W path)
        then [EUnlink (probe_path W path) (unlink_ok W (probe_path W path))]
        else []).
Proof. apply check_if_valid_path_yields. Qed.

(** X2. [get_target_html] returns the body when the page could be opened
    and read, and otherwise raises [SystemExit] with its message; the body
    is not read when the page could not be opened. *)
Theorem get_target_html_body_or_exit W url debug t :
  exists t',
    get_target_html W url debug t =
    (match urlopen_ok W url, response_read W url with
     | true, Some html => Return html
     | _, _ => Raise (SystemExit ("Error, could not connect to target " ++ url)%string)
     end,
     t ++ t') /\
    quiet t' =
    EUrlOpen url (urlopen_ok W url)
    :: (if urlopen_ok W url
        then [ERead url (match response_read W url with Some _ => true | None => false end)]
        else []).
Proof. apply get_target_html_yields. Qed.



Lemma Forall2_In_r {A B} (P : A -> B -> Prop) l1 l2 y :
  Forall2 P l1 l2 -> In y l2 -> exists x, In x l1 /\ P x y.
Proof.
  induction 1 as [|x y' l1 l2 Hp _ IH]; simpl; [tauto|].
  intros [->|H]; [exists x; auto|].
  destruct (IH H) as (x' & Hx & Hp'). exists x'. auto.
Qed.

Lemma selected_links_sound W html exts soup :
  html_parser W html = Return soup ->
  NoDup (selected_links W html exts) /\
  forall x, In x (selected_links W html exts) ->
            exists n, In n (find_all_href soup) /\ getitem n "href" = Return x.
Proof.
  intros Hp. unfold selected_links, deduped_hotlinks. rewrite Hp. simpl.
  destruct (deduped_of_run soup) as (hotlinks & F & E). rewrite E.
  rewrite dedup_first_occurrences.
  assert (Hin : forall x, In x (first_occurrences hotlinks) ->
                          exists n, In n (find_all_href soup) /\
                                    getitem n "href" = Return x).
  { intros x Hx. apply (proj1 (first_occurrences_In _ _)) in Hx.
    exact (Forall2_In_r _ _ _ _ F Hx). }
  destruct exts as [|s|]; split.
  - apply first_occurrences_NoDup.
  - exact Hin.
  - apply NoDup_filter, first_occurrences_NoDup.
  - intros x Hx. apply filter_In in Hx. apply Hin. tauto.
  - constructor.
  - intros x [].
Qed.

(** X4. On a page the parser turns into a document, and whatever the
    allow-list, [find_hotlinks] returns a list without repeated values,
    each of them the href of an element of the document, and does nothing
    but print. *)
Theorem find_hotlinks_distinct_hrefs W html exts debug t soup :
  html_parser W html = Return soup ->
  exts <> NoneObj ->
  exists links t',
    find_hotlinks W html exts debug t = (Return links, t ++ t') /\
    quiet t' = [] /\
    NoDup links /\
    forall x, In x links ->
              exists n, In n (find_all_href soup) /\ getitem n "href" = Return x.
Proof.
  intros Hp Hn.
  destruct (find_hotlinks_selected W html exts debug soup Hp Hn t) as (t' & E & Q).
  exists (selected_links W html exts), t'.
  destruct (selected_links_sound W html exts soup Hp) as [Hd Hin]. auto.
Qed.

Lemma find_hotlinks_distinct_hrefs_witness :
  exists links t',
    find_hotlinks (scenario_world true (fun _ => true)) "<html>" (StrObj "jpg,png") true [] =
    (Return links, [] ++ t') /\
    quiet t' = [] /\
    NoDup links /\
    forall x, In x links ->
              exists n,
                In n (find_all_href
                        [Tag "html" []
                           [Tag "a" [("href", "//cdn.example.com/a.jpg")] [Text "a"];
                            Tag "a" [("href", "https://x.com/b.png")] [];
                            Tag "a" [("href", "//cdn.example.com/a.jpg")] []]]) /\
                getitem n "href" = Return x.
Proof.
  apply (find_hotlinks_distinct_hrefs (scenario_world true (fun _ => true)) "<html>"
           (StrObj "jpg,png") true []).
  - reflexivity.
  - discriminate.
Defined.

Lemma link_ext_no_dot link e : link_ext_of link = Return e -> Py.contains "." e = false.
Proof.
  intros H. destruct (link_ext_of_spec link) as (e' & He & Hx).
  rewrite H in He. injection He as <-.
  destruct Hx as [(Hn & ->)|(p & _ & Hn)]; exact Hn.
Qed.

Lemma keeps_dotted exts link :
  (forall x, In x exts -> Py.contains "." x = true) -> keeps exts link = false.
Proof.
  intros H. unfold keeps. destruct (link_ext_of link) as [e|] eqn:E; [|reflexivity].
  destruct (Py.mem e exts) eqn:Em; [|reflexivity].
  apply mem_In in Em. apply H in Em. rewrite (link_ext_no_dot _ _ E) in Em. discriminate.
Qed.

(** X5. The text compared with the allow-list never contains ['.'], so an
    entry that contains one (such as [.jpg] or [tar.gz]) matches no link:
    with an allow-list of such entries [find_hotlinks] returns the empty
    list on every page the parser accepts (and ends as the parser does on
    the others). *)
Theorem dotted_allow_list_selects_nothing W html s debug t :
  (forall x, In x (Py.split "," s) -> Py.contains "." x = true) ->
  (forall link, keeps (Py.split "," s) link = false) /\
  exists t',
    find_hotlinks W html (StrObj s) debug t =
    (omap (fun _ => []) (html_parser W html), t ++ t').
Proof.
  intros H. split; [intros link; now apply keeps_dotted|].
  destruct (find_hotlinks_yields W html (StrObj s) debug t) as (t' & E & _).
  exists t'. rewrite E. f_equal. unfold hotlinks_outcome, deduped_hotlinks.
  destruct (html_parser W html) as [soup|e]; [|reflexivity]. simpl.
  destruct (deduped_of_run soup) as (hotlinks & _ & ->). simpl. f_equal.
  induction (dedup hotlinks) as [|x d IH]; [reflexivity|].
  simpl. now rewrite keeps_dotted.
Qed.

Lemma dotted_allow_list_selects_nothing_witness :
  (forall link, keeps (Py.split "," ".jpg,.png") link = false) /\
  exists t',
    find_hotlinks (scenario_world true (fun _ => true)) "<html>" (StrObj ".jpg,.png")
      false [] = (Return [], [] ++ t').
Proof.
  apply (dotted_allow_list_selects_nothing (scenario_world true (fun _ => true)) "<html>"
           ".jpg,.png" false []).
  intros x Hx. simpl in Hx. destruct Hx as [<-|[<-|[]]]; reflexivity.
Defined.

Lemma with_scheme_has_colon scheme link : Py.contains ":" (with_scheme scheme link) = true.
Proof.
  unfold with_scheme. destruct (Py.contains ":" link) eqn:E; [exact E|].
  rewrite contains_app. simpl. apply orb_true_r.
Qed.

Lemma with_scheme_fixed scheme links :
  Forall (fun l => Py.contains ":" l = true) links -> map (with_scheme scheme) links = links.
Proof.
  induction 1 as [|l r Hl _ IH]; [reflexivity|].
  simpl. unfold with_scheme at 1. now rewrite Hl, IH.
Qed.

(** X6. Every link [check_and_fix_protocol] returns contains [':'], and
    running it again on its result, with any target, changes nothing. *)
Theorem check_and_fix_protocol_idempotent target urls debug t :
  exists fixed t',
    check_and_fix_protocol target urls debug t = (Return fixed, t ++ t') /\
    Forall (fun l => Py.contains ":" l = true) fixed /\
    forall target' debug' t0,
      fst (check_and_fix_protocol target' fixed debug' t0) = Return fixed.
Proof.
  destruct (check_and_fix_protocol_yields target urls debug t) as (t' & E & _).
  exists (normalized_links target urls), t'. split; [exact E|].
  assert (F : Forall (fun l => Py.contains ":" l = true) (normalized_links target urls)).
  { unfold normalized_links. destruct (Py.item0 (Py.split ":" target)); [|constructor].
    rewrite Forall_forall. intros l Hl. apply in_map_iff in Hl.
    destruct Hl as (x & <- & _). apply with_scheme_has_colon. }
  split; [exact F|]. intros target' debug' t0.
  destruct (check_and_fix_protocol_yields target' (normalized_links target urls) debug' t0)
    as (t1 & E1 & _).
  rewrite E1. simpl. f_equal. unfold normalized_links at 1.
  destruct (split_first ":" target') as (p & -> & _). now apply with_scheme_fixed.
Qed.

Lemma filename_of_spec url :
  Py.contains "/" (filename_of url) = false /\
  (url = filename_of url \/ exists q, url = (q ++ "/" ++ filename_of url)%string).
Proof.
  unfold filename_of. destruct (split_last "/" url) as (e & -> & Hc).
  destruct Hc as [(Hn & -> & _)|(p & -> & Hn & _)].
  - auto.
  - split; [exact Hn|]. right. exists p. reflexivity.
Qed.

Lemma download_file_retrievals W url dest debug silent halt dry wait t :
  exists r t',
    download_file W url dest debug silent halt dry wait t = (r, t ++ t') /\
    (forall u p ok,
        In (EUrlRetrieve u p ok) t' -> u = url /\ p = target_path dest url) /\
    length (retrieved t') <= 1.
Proof.
  destruct (download_file_run W url dest debug silent halt dry wait t) as (t' & E & Q).
  eexists. exists t'. split; [exact E|]. split.
  - intros u p ok Hin.
    assert (Hq : In (EUrlRetrieve u p ok) (quiet t')).
    { unfold quiet. apply filter_In. auto. }
    rewrite Q in Hq. destruct dry; [destruct Hq|].
    apply in_app_or in Hq. destruct Hq as [Hq|Hq].
    + destruct (negb (urlretrieve_ok W (count_retrievals t) url (target_path dest url))
                && urlretrieve_opened W (count_retrievals t) url (target_path dest url));
        simpl in Hq; [destruct Hq as [Hq|[]]; discriminate Hq|destruct Hq].
    + destruct Hq as [Hq|Hq]; [injection Hq as <- <- _; auto|].
      destruct (urlretrieve_ok W (count_retrievals t) url (target_path dest url)
                && sleeps W wait); simpl in Hq; [destruct Hq as [Hq|[]]|destruct Hq].
      discriminate Hq.
  - rewrite <- retrieved_quiet, Q. destruct dry; simpl; [lia|].
    rewrite retrieved_app.
    destruct (negb (urlretrieve_ok W (count_retrievals t) url (target_path dest url))
              && urlretrieve_opened W (count_retrievals t) url (target_path dest url));
      destruct (urlretrieve_ok W (count_retrievals t) url (target_path dest url)
                && sleeps W wait); simpl; lia.
Qed.

(** X7. One call of [download_file] retrieves at most once, and only the
    given link, to the destination directory followed by ['/'] and the
    text after the last ['/'] of the link (the whole link when it has
    none); that file name never contains ['/']. *)
Theorem download_file_target W url dest debug silent halt dry wait t :
  exists r t',
    download_file W url dest debug silent halt dry wait t = (r, t ++ t') /\
    (forall u p ok,
        In (EUrlRetrieve u p ok) t' -> u = url /\ p = (dest ++ "/" ++ filename_of url)%string) /\
    length (retrieved t') <= 1 /\
    Py.contains "/" (filename_of url) = false /\
    (url = filename_of url \/ exists q, url = (q ++ "/" ++ filename_of url)%string).
Proof.
  destruct (download_file_retrievals W url dest debug silent halt dry wait t)
    as (r & t' & E & Hin & Hlen).
  exists r, t'. split; [exact E|]. split; [exact Hin|]. split; [exact Hlen|].
  apply filename_of_spec.
Qed.

(** X8. The outcomes of [download_file]: it returns [True] exactly in a dry
    run or when the retrieval succeeded and [time.sleep] returned (the
    wait time is not negative and not too long for the clock); it returns
    [False] exactly when that is not so and neither halt-on-error is set
    nor silent unset; in the remaining cases it raises [TypeError]. It
    never raises [SystemExit]. *)
Theorem download_file_outcomes W url dest debug silent halt dry wait t :
  exists r t',
    download_file W url dest debug silent halt dry wait t = (r, t ++ t') /\
    (r = Return true <->
     dry || (urlretrieve_ok W (count_retrievals t) url (target_path dest url)
             && (sleep_fits W wait && negb (wait <? 0)%Z)) = true) /\
    (r = Return false <->
     dry || (urlretrieve_ok W (count_retrievals t) url (target_path dest url)
             && (sleep_fits W wait && negb (wait <? 0)%Z)) = false
     /\ halt = false /\ silent = true) /\
    (r = Raise TypeError <->
     dry || (urlretrieve_ok W (count_retrievals t) url (target_path dest url)
             && (sleep_fits W wait && negb (wait <? 0)%Z)) = false
     /\ (halt = true \/ silent = false)) /\
    (forall msg, r <> Raise (SystemExit msg)).
Proof.
  destruct (download_file_run W url dest debug silent halt dry wait t) as (t' & E & _).
  unfold sleeps in E.
  eexists. exists t'. split; [exact E|].
  destruct (dry || (urlretrieve_ok W (count_retrievals t) url (target_path dest url)
                    && (sleep_fits W wait && negb (wait <? 0)%Z))), halt, silent;
    repeat split; intros; try discriminate; intuition congruence.
Qed.

(** X9. With a negative wait time a retrieval that succeeded still counts
    as a failure: the file has been retrieved, [time.sleep] refuses the
    negative length, and the call ends as after a failed retrieval. *)
Theorem negative_wait_fails_after_retrieval W url dest debug silent halt wait t :
  (wait < 0)%Z ->
  urlretrieve_ok W (count_retrievals t) url (target_path dest url) = true ->
  exists t',
    download_file W url dest debug silent halt false wait t =
    (if halt then Raise TypeError else if silent then Return false else Raise TypeError,
     t ++ t') /\
    quiet t' = [EUrlRetrieve url (target_path dest url) true].
Proof.
  intros Hw Hok.
  destruct (download_file_run W url dest debug silent halt false wait t) as (t' & E & Q).
  apply Z.ltb_lt in Hw. unfold sleeps in E, Q.
  rewrite Hok, Hw, andb_false_r in E, Q. simpl in E, Q.
  exists t'. auto.
Qed.

Lemma negative_wait_fails_after_retrieval_witness :
  exists t',
    download_file (scenario_world true (fun _ => true)) "https://x.com/b.png" "out"
      false true false false (-1) [] =
    (Return false, [] ++ t') /\
    quiet t' = [EUrlRetrieve "https://x.com/b.png" (target_path "out" "https://x.com/b.png") true].
Proof.
  apply (negative_wait_fails_after_retrieval (scenario_world true (fun _ => true))
           "https://x.com/b.png" "out" false true false (-1) []); reflexivity.
Defined.

(** X20. The same holds of a wait time too long for the clock: the file
    has been retrieved, [time.sleep] raises [OverflowError] inside the
    [try] block, and the call ends as after a failed retrieval. *)
Theorem overlong_wait_fails_after_retrieval W url dest debug silent halt wait t :
  sleep_fits W wait = false ->
  urlretrieve_ok W (count_retrievals t) url (target_path dest url) = true ->
  exists t',
    download_file W url dest debug silent halt false wait t =
    (if halt then Raise TypeError else if silent then Return false else Raise TypeError,
     t ++ t') /\
    quiet t' = [EUrlRetrieve url (target_path dest url) true].
Proof.
  intros Hw Hok.
  destruct (download_file_run W url dest debug silent halt false wait t) as (t' & E & Q).
  unfold sleeps in E, Q. rewrite Hok, Hw in E, Q. simpl in E, Q.
  exists t'. auto.
Qed.

Lemma overlong_wait_fails_after_retrieval_witness :
  exists t',
    download_file (scenario_world true (fun _ => true)) "https://x.com/b.png" "out"
      false true false false 10000000000 [] =
    (Return false, [] ++ t') /\
    quiet t' = [EUrlRetrieve "https://x.com/b.png" (target_path "out" "https://x.com/b.png") true].
Proof.
  apply (overlong_wait_fails_after_retrieval (scenario_world true (fun _ => true))
           "https://x.com/b.png" "out" false true false 10000000000 []); reflexivity.
Defined.

(** X10. The loop of [main] retrieves the links in their order, each at
    most once and each to its own path, up to some position of the list:
    the whole list when it returns and is not a dry run, nothing in a dry
    run. With silent set and halt-on-error unset it always returns. *)
Theorem download_all_in_order W a wait links t :
  exists r t' k,
    download_all W a wait links t = (r, t ++ t') /\
    retrieved t' =
    map (fun link => (link, target_path (destination_directory a) link)) (firstn k links) /\
    (r = Return tt -> dry_run_mode a = false -> k = length links) /\
    (dry_run_mode a = true -> r = Return tt /\ k = 0) /\
    (silent_mode a = true -> halt_error a = false -> r = Return tt).
Proof. apply download_all_order. Qed.

Lemma exts_of_arg_some a : file_types a <> None -> exts_of_arg (file_types a) <> NoneObj.
Proof.
  destruct (file_types a) as [s|]; [|congruence].
  intros _. simpl. destruct (String.eqb s "*"); discriminate.
Qed.

(** X11. A dry run of [main] with a writable destination, a page that is
    read and parsed, and an allow-list returns normally; apart from
    console output it creates and removes the probe file and fetches the
    page, and nothing else: no retrieval and no pause. *)
Theorem main_dry_run W a n html soup t :
  wait_time a = Return n ->
  open_x_ok W (probe_path W (destination_directory a)) = true ->
  unlink_ok W (probe_path W (destination_directory a)) = true ->
  urlopen_ok W (target_url a) = true ->
  response_read W (target_url a) = Some html ->
  html_parser W html = Return soup ->
  file_types a <> None ->
  dry_run_mode a = true ->
  exists t',
    main W a t = (Return tt, t ++ t') /\
    quiet t' =
    [EOpenX (probe_path W (destination_directory a)) true;
     EUnlink (probe_path W (destination_directory a)) true;
     EUrlOpen (target_url a) true; ERead (target_url a) true].
Proof.
  intros Hw Ho Hu Hp Hr Hs Hf Hd.
  destruct (main_until_downloads W a n html soup _ _ _ _ Hw
              (probe_ok_yields W _ (debug_mode a) Ho Hu)
              (fetch_ok_yields W _ (debug_mode a) html Hp Hr) Hs (exts_of_arg_some a Hf)
              (download_all_dry_yields W a n _ Hd) t) as (t' & E & Q).
  exists t'. auto.
Qed.

Lemma main_dry_run_witness :
  exists t',
    main (scenario_world true (fun _ => false)) (scenario_args false false true) [] =
    (Return tt, [] ++ t') /\
    quiet t' =
    [EOpenX "out/0123456789" true; EUnlink "out/0123456789" true;
     EUrlOpen "http://example.com/page" true; ERead "http://example.com/page" true].
Proof.
  eapply (main_dry_run (scenario_world true (fun _ => false))
            (scenario_args false false true) 1 "<html>" _ []); try reflexivity.
  discriminate.
Defined.

(** X12. When the destination is writable, the page is read and parsed, an
    allow-list is given, every retrieval succeeds and [time.sleep] takes
    the wait time (not negative, not too long for the clock), [main]
    returns normally and, apart from console output, probes the
    destination, fetches the page and then retrieves exactly the selected
    links with their scheme repaired, in order, each to its path and each
    followed by the pause, also the last. *)
Theorem main_downloads_selected_links W a n html soup t :
  wait_time a = Return n ->
  (0 <= n)%Z ->
  sleep_fits W n = true ->
  open_x_ok W (probe_path W (destination_directory a)) = true ->
  unlink_ok W (probe_path W (destination_directory a)) = true ->
  urlopen_ok W (target_url a) = true ->
  response_read W (target_url a) = Some html ->
  html_parser W html = Return soup ->
  file_types a <> None ->
  dry_run_mode a = false ->
  (forall k url path, urlretrieve_ok W k url path = true) ->
  exists t',
    main W a t = (Return tt, t ++ t') /\
    quiet t' =
    [EOpenX (probe_path W (destination_directory a)) true;
     EUnlink (probe_path W (destination_directory a)) true;
     EUrlOpen (target_url a) true; ERead (target_url a) true]
    ++ flat_map (fun link =>
                   [EUrlRetrieve link (target_path (destination_directory a) link) true;
                    ESleep n])
         (normalized_links (target_url a)
            (selected_links W html (exts_of_arg (file_types a)))).
Proof.
  intros Hw Hn Hfit Ho Hu Hp Hr Hs Hf Hd Hok.
  destruct (main_until_downloads W a n html soup _ _ _ _ Hw
              (probe_ok_yields W _ (debug_mode a) Ho Hu)
              (fetch_ok_yields W _ (debug_mode a) html Hp Hr) Hs (exts_of_arg_some a Hf)
              (download_all_succeed_yields W a n _ Hok Hfit Hn Hd) t) as (t' & E & Q).
  exists t'. auto.
Qed.

Lemma main_downloads_selected_links_witness :
  exists t',
    main (scenario_world true (fun _ => true)) (scenario_args false false false) [] =
    (Return tt, [] ++ t') /\
    quiet t' =
    [EOpenX "out/0123456789" true; EUnlink "out/0123456789" true;
     EUrlOpen "http://example.com/page" true; ERead "http://example.com/page" true]
    ++ [EUrlRetrieve "http://cdn.example.com/a.jpg" "out/a.jpg" true; ESleep 1;
        EUrlRetrieve "https://x.com/b.png" "out/b.png" true; ESleep 1].
Proof.
  eapply (main_downloads_selected_links (scenario_world true (fun _ => true))
            (scenario_args false false false) 1 "<html>" _ []);
    try reflexivity; try discriminate; try lia.
Defined.

(** X13. A bare [-f] leaves [None] as the allow-list: with a writable
    destination and a page that is read and parsed, [main] then ends with
    [AttributeError] and exit status 1 once the page has been fetched,
    and retrieves nothing. *)
Theorem main_bare_file_types W a n html soup t :
  wait_time a = Return n ->
  open_x_ok W (probe_path W (destination_directory a)) = true ->
  unlink_ok W (probe_path W (destination_directory a)) = true ->
  urlopen_ok W (target_url a) = true ->
  response_read W (target_url a) = Some html ->
  html_parser W html = Return soup ->
  file_types a = None ->
  exists t',
    main W a t = (Raise AttributeError, t ++ t') /\
    exit_status (fst (main W a t)) = 1%Z /\
    quiet t' =
    [EOpenX (probe_path W (destination_directory a)) true;
     EUnlink (probe_path W (destination_directory a)) true;
     EUrlOpen (target_url a) true; ERead (target_url a) true].
Proof.
  intros Hw Ho Hu Hp Hr Hs Hf.
  assert (Hx : yields (find_hotlinks W html (exts_of_arg (file_types a)) (debug_mode a))
                 (Raise AttributeError) []).
  { rewrite Hf. pose proof (find_hotlinks_yields W html NoneObj (debug_mode a)) as H.
    unfold hotlinks_outcome, deduped_hotlinks in H. rewrite Hs in H. simpl in H.
    destruct (deduped_of_run soup) as (hotlinks & _ & E). rewrite E in H. exact H. }
  destruct (main_until_links W a n html _ _ _ Hw
              (probe_ok_yields W _ (debug_mode a) Ho Hu)
              (fetch_ok_yields W _ (debug_mode a) html Hp Hr) Hx t) as (t' & E & Q).
  exists t'. rewrite E. auto.
Qed.

Lemma main_bare_file_types_witness :
  exists t',
    main (scenario_world true (fun _ => true)) bare_f_args [] =
    (Raise AttributeError, [] ++ t') /\
    exit_status (fst (main (scenario_world true (fun _ => true)) bare_f_args [])) = 1%Z /\
    quiet t' =
    [EOpenX "out/0123456789" true; EUnlink "out/0123456789" true;
     EUrlOpen "http://example.com/page" true; ERead "http://example.com/page" true].
Proof.
  eapply (main_bare_file_types (scenario_world true (fun _ => true)) bare_f_args 1
            "<html>" _ []); reflexivity.
Defined.

(** X19. When the parser rejects the page, [main] ends with the exception
    of the parser and exit status 1 once the page has been fetched, and
    retrieves nothing: line 83 stands outside any [try]. *)
Theorem main_parser_rejects W a n html e t :
  wait_time a = Return n ->
  open_x_ok W (probe_path W (destination_directory a)) = true ->
  unlink_ok W (probe_path W (destination_directory a)) = true ->
  urlopen_ok W (target_url a) = true ->
  response_read W (target_url a) = Some html ->
  html_parser W html = Raise e ->
  exists t',
    main W a t = (Raise e, t ++ t') /\
    exit_status (fst (main W a t)) = 1%Z /\
    quiet t' =
    [EOpenX (probe_path W (destination_directory a)) true;
     EUnlink (probe_path W (destination_directory a)) true;
     EUrlOpen (target_url a) true; ERead (target_url a) true].
Proof.
  intros Hw Ho Hu Hp Hr Hs.
  assert (Hx : yields (find_hotlinks W html (exts_of_arg (file_types a)) (debug_mode a))
                 (Raise e) []).
  { pose proof (find_hotlinks_yields W html (exts_of_arg (file_types a)) (debug_mode a))
      as H.
    unfold hotlinks_outcome, deduped_hotlinks in H. now rewrite Hs in H. }
  destruct (main_until_links W a n html _ _ _ Hw
              (probe_ok_yields W _ (debug_mode a) Ho Hu)
              (fetch_ok_yields W _ (debug_mode a) html Hp Hr) Hx t) as (t' & E & Q).
  exists t'. rewrite E. split; [reflexivity|]. split; [now destruct e|exact Q].
Qed.

Lemma main_parser_rejects_witness :
  exists t',
    main rejecting_world (scenario_args false false false) [] =
    (Raise ParserRejectedMarkup, [] ++ t') /\
    exit_status (fst (main rejecting_world (scenario_args false false false) [])) = 1%Z /\
    quiet t' =
    [EOpenX "out/0123456789" true; EUnlink "out/0123456789" true;
     EUrlOpen "http://example.com/page" true; ERead "http://example.com/page" true].
Proof.
  apply (main_parser_rejects rejecting_world (scenario_args false false false) 1
           "<![x]>" ParserRejectedMarkup []); reflexivity.
Defined.

(** X14. The debug flag changes console output only: two runs of [main]
    that differ in it alone end alike and leave the same events once the
    console output is taken away. *)
Theorem debug_changes_console_only W a d1 d2 t :
  fst (main W (with_debug a d1) t) = fst (main W (with_debug a d2) t) /\
  quiet (snd (main W (with_debug a d1) t)) = quiet (snd (main W (with_debug a d2) t)).
Proof.
  destruct (sim_main W a d1 d2 (silent_mode a) (silent_mode a) (or_introl eq_refl)
              t t eq_refl) as (r & t1 & t2 & E1 & E2 & Q).
  change (with_silent (with_debug a d1) (silent_mode a)) with (with_debug a d1) in E1.
  change (with_silent (with_debug a d2) (silent_mode a)) with (with_debug a d2) in E2.
  rewrite E1, E2. simpl. rewrite !quiet_app, Q. auto.
Qed.

(** X15. Under halt-on-error, and in a dry run, the silent flag changes
    console output only: two runs of [main] that differ in it alone end
    alike and leave the same events once the console output is taken
    away. *)
Theorem silent_changes_console_only_when_halting W a s1 s2 t :
  halt_error a = true \/ dry_run_mode a = true ->
  fst (main W (with_silent a s1) t) = fst (main W (with_silent a s2) t) /\
  quiet (snd (main W (with_silent a s1) t)) = quiet (snd (main W (with_silent a s2) t)).
Proof.
  intros H.
  destruct (sim_main W a (debug_mode a) (debug_mode a) s1 s2 (or_intror H)
              t t eq_refl) as (r & t1 & t2 & E1 & E2 & Q).
  change (with_silent (with_debug a (debug_mode a)) s1) with (with_silent a s1) in E1.
  change (with_silent (with_debug a (debug_mode a)) s2) with (with_silent a s2) in E2.
  rewrite E1, E2. simpl. rewrite !quiet_app, Q. auto.
Qed.

Lemma silent_changes_console_only_when_halting_witness :
  fst (main (scenario_world true (fun _ => false))
         (with_silent (scenario_args false true false) true) []) =
  fst (main (scenario_world true (fun _ => false))
         (with_silent (scenario_args false true false) false) []) /\
  quiet (snd (main (scenario_world true (fun _ => false))
                (with_silent (scenario_args false true false) true) [])) =
  quiet (snd (main (scenario_world true (fun _ => false))
                (with_silent (scenario_args false true false) false) [])).
Proof.
  apply (silent_changes_console_only_when_halting (scenario_world true (fun _ => false))
           (scenario_args false true false) true false []).
  left. reflexivity.
Defined.

Lemma filter_absent x (r : list string) :
  ~ In x r -> filter (fun y => negb (String.eqb y x)) r = r.
Proof.
  induction r as [|y r IH]; [reflexivity|].
  intros Hx. simpl. destruct (String.eqb y x) eqn:E.
  - apply String.eqb_eq in E. subst y. exfalso. apply Hx. now left.
  - simpl. f_equal. apply IH. intros Hin. apply Hx. now right.
Qed.

Lemma first_occurrences_NoDup_id l : NoDup l -> first_occurrences l = l.
Proof.
  induction 1 as [|x r Hx _ IH]; [reflexivity|].
  simpl. rewrite IH. f_equal. now apply filter_absent.
Qed.

(** X16. [list(OrderedDict.fromkeys(l))] leaves a list without repeated
    values as it is, so removing duplicates twice is the same as once. *)
Theorem dedup_idempotent l :
  (NoDup l -> dedup l = l) /\ dedup (dedup l) = dedup l.
Proof.
  split.
  - intros H. rewrite dedup_first_occurrences. now apply first_occurrences_NoDup_id.
  - rewrite !dedup_first_occurrences.
    apply first_occurrences_NoDup_id, first_occurrences_NoDup.
Qed.

Lemma last_piece_unique c p1 p2 e1 e2 :
  (p1 ++ String c e1)%string = (p2 ++ String c e2)%string ->
  Py.contains c e1 = false -> Py.contains c e2 = false -> e1 = e2.
Proof.
  assert (Hc : forall p e, Py.contains c (p ++ String c e) = true).
  { intros p e. rewrite contains_app. simpl. rewrite Ascii.eqb_refl. apply orb_true_r. }
  revert p2. induction p1 as [|a p1 IH]; intros [|b p2] E H1 H2; simpl in E.
  - now injection E.
  - injection E as _ E. rewrite E, Hc in H1. discriminate.
  - injection E as _ E. rewrite <- E, Hc in H2. discriminate.
  - injection E as _ E. eauto.
Qed.

Lemma filename_of_segment q f :
  Py.contains "/" f = false -> filename_of (q ++ "/" ++ f) = f.
Proof.
  intros Hf. destruct (filename_of_spec (q ++ "/" ++ f)) as [Hn [E|(q' & E)]].
  - rewrite <- E, contains_app in Hn. simpl in Hn. rewrite orb_true_r in Hn.
    discriminate.
  - symmetry. exact (last_piece_unique "/" _ _ _ _ E Hf Hn).
Qed.

(** X17. The path a link is written to depends on its last segment only:
    whatever precedes the last ['/'], a link ending in the segment [f] is
    retrieved to the destination directory followed by ['/'] and [f], so
    two links with the same last segment share one file. *)
Theorem same_segment_same_path W q f dest debug silent halt dry wait t :
  Py.contains "/" f = false ->
  target_path dest (q ++ "/" ++ f) = (dest ++ "/" ++ f)%string /\
  exists r t',
    download_file W (q ++ "/" ++ f) dest debug silent halt dry wait t = (r, t ++ t') /\
    forall u p ok, In (EUrlRetrieve u p ok) t' -> p = (dest ++ "/" ++ f)%string.
Proof.
  intros Hf.
  assert (Hp : target_path dest (q ++ "/" ++ f) = (dest ++ "/" ++ f)%string).
  { unfold target_path. now rewrite filename_of_segment. }
  split; [exact Hp|].
  destruct (download_file_retrievals W (q ++ "/" ++ f) dest debug silent halt dry wait t)
    as (r & t' & E & Hin & _).
  exists r, t'. split; [exact E|].
  intros u p ok Hu. destruct (Hin u p ok Hu) as [_ ->]. exact Hp.
Qed.

Lemma same_segment_same_path_witness :
  target_path "out" ("http://a.example/x" ++ "/" ++ "p.jpg?v=1") =
  ("out" ++ "/" ++ "p.jpg?v=1")%string /\
  exists r t',
    download_file (scenario_world true (fun _ => true))
      ("http://a.example/x" ++ "/" ++ "p.jpg?v=1") "out" false true false false 0 [] =
    (r, [] ++ t') /\
    forall u p ok, In (EUrlRetrieve u p ok) t' -> p = ("out" ++ "/" ++ "p.jpg?v=1")%string.
Proof.
  apply (same_segment_same_path (scenario_world true (fun _ => true))
           "http://a.example/x" "p.jpg?v=1" "out" false true false false 0 []).
  reflexivity.
Defined.




